(** * price_tracker: the reconciliation of fetched products with the database

    A shallow embedding of [PriceTracker.update_product] and of the loop of
    [PriceTracker.track_prices] (src/price_tracker.py) over the two tables
    that [create_tables] declares (src/setup_db.py).

    - A fetched product is the Python dict that [response.json()] decodes:
      a finite map from keys to Python values.
    - The world of a tracker holds the tables [products] and
      [price_history] (rows in the order in which they were written), the
      sequence behind [price_history.id], the clock of the database server
      and the records logged.
    - A method of the tracker is a function from the world before the call
      to its result (an exception or a value) and the world after it.

    What the libraries do is modelled as far as the code relies on it:
    [Decimal(str(x))] and the comparison of [Decimal]s, the coercion of a
    parameter to the type of its column, the constraints of the schema, and
    [commit] and [rollback].  Strings are read as sequences of one-byte
    characters and the exponent of a [Decimal] is not bounded.  A VARCHAR
    column accepts a Python [str] or [None], the INTEGER column an [int] or
    [None]; the conversions PostgreSQL would apply to values of other Python
    types, and its truncation of trailing spaces beyond the width of a
    VARCHAR column, are not modelled: such values are rejected.  The HTTP
    request, the configuration, the connection and the outer loop of [main]
    are outside the model.

    The setup (src/setup_db.py) is embedded in [Setup], over the databases
    of a server and, in each, the relations under the four names that
    [create_tables] uses; what the server decides about the text of a name,
    a reference or an index is left open. *)

From Stdlib Require Import ZArith QArith Qpower Qabs Lia Ascii String.
From stdpp Require Import base option list strings gmap sorting.

#[local] Set Warnings "-register-all".

Local Open Scope string_scope.
Local Open Scope list_scope.
Local Open Scope Z_scope.

(** ** Python values *)

(** The values [json] decodes.  A float is kept as the text [str] prints for
    it ([repr] is injective on floats); the contents of lists and dicts are
    never inspected by the tracker. *)
Inductive pyval : Type :=
| PyNone
| PyBool (b : bool)
| PyInt (n : Z)
| PyFloat (repr : string)
| PyStr (s : string)
| PyList (items : list pyval)
| PyDict (items : list (string * pyval)).

(** [decimal.Decimal]: a finite number [coef * 10^exp], an infinity, or a
    quiet or signaling NaN. *)
Inductive Decimal : Type :=
| DFin (coef exp : Z)
| DInf (negative : bool)
| DNaN (signaling : bool).

Inductive exn : Type :=
| KeyError (key : string)
| InvalidOperation      (* decimal.InvalidOperation *)
| ValueError            (* psycopg2: a string literal cannot contain NUL *)
| ProgrammingError      (* psycopg2: no adapter, no operator, wrong type *)
| DataError             (* psycopg2: value out of range or too long *)
| IntegrityError.       (* psycopg2: a constraint of the schema is violated *)

(** ** [Decimal(s)] for a string [s] *)

Module DecimalSyntax.

Definition code (a : ascii) : Z := Z.of_nat (nat_of_ascii a).

Definition is_digit (a : ascii) : bool := (48 <=? code a) && (code a <=? 57).

(* str.strip() removes \t \n \v \f \r, \x1c..\x1f and the space *)
Definition is_space (a : ascii) : bool :=
  (9 <=? code a) && (code a <=? 13) || (28 <=? code a) && (code a <=? 32).

Definition lower (a : ascii) : ascii :=
  if (65 <=? code a) && (code a <=? 90)
  then ascii_of_nat (nat_of_ascii a + 32) else a.

Fixpoint lstrip (l : list ascii) : list ascii :=
  match l with
  | a :: l' => if is_space a then lstrip l' else l
  | [] => []
  end.

Definition strip (l : list ascii) : list ascii :=
  rev (lstrip (rev (lstrip l))).

Definition remove_underscores (l : list ascii) : list ascii :=
  List.filter (fun a => negb (Ascii.eqb a "_")) l.

(* the longest prefix of digits, and what follows it *)
Fixpoint digits (l : list ascii) : list ascii * list ascii :=
  match l with
  | a :: l' =>
      if is_digit a then let '(ds, r) := digits l' in (a :: ds, r)
      else ([], l)
  | [] => ([], [])
  end.

Definition digits_value (ds : list ascii) : Z :=
  fold_left (fun acc a => 10 * acc + (code a - 48)) ds 0.

Definition sign (l : list ascii) : bool * list ascii :=
  match l with
  | "-"%char :: r => (true, r)
  | "+"%char :: r => (false, r)
  | _ => (false, l)
  end.

Definition signed (negative : bool) (n : Z) : Z :=
  if negative then - n else n.

(* digits, an optional fraction, an optional exponent; at least one digit
   before the exponent *)
Definition number (l : list ascii) : option (Z * Z) :=
  let '(ip, r1) := digits l in
  let '(fp, r2) := match r1 with
                   | "."%char :: r => digits r
                   | _ => ([], r1)
                   end in
  match ip ++ fp with
  | [] => None
  | _ =>
      let coef := digits_value (ip ++ fp) in
      let scale := Z.of_nat (length fp) in
      match r2 with
      | [] => Some (coef, - scale)
      | e :: r3 =>
          if Ascii.eqb (lower e) "e" then
            let '(eneg, r4) := sign r3 in
            match digits r4 with
            | ((_ :: _) as ed, []) =>
                Some (coef, signed eneg (digits_value ed) - scale)
            | _ => None
            end
          else None
      end
  end.

Definition special (negative : bool) (l : list ascii) : option Decimal :=
  let w := string_of_list_ascii (map lower l) in
  if String.eqb w "inf" || String.eqb w "infinity" then Some (DInf negative)
  else
    match map lower l with
    | "n"%char :: "a"%char :: "n"%char :: diag =>
        if forallb is_digit diag then Some (DNaN false) else None
    | "s"%char :: "n"%char :: "a"%char :: "n"%char :: diag =>
        if forallb is_digit diag then Some (DNaN true) else None
    | _ => None
    end.

Definition parse (s : string) : option Decimal :=
  let l := remove_underscores (strip (list_ascii_of_string s)) in
  let '(negative, body) := sign l in
  match number body with
  | Some (coef, exp) => Some (DFin (signed negative coef) exp)
  | None => special negative body
  end.

End DecimalSyntax.

(** [Decimal(str(x))]: [str] of an int is its decimal numeral, of a float
    its [repr], of a str the string itself; [str] of [None], of a bool, of a
    list and of a dict is not the text of a number. *)
Definition Decimal_of_str (x : pyval) : exn + Decimal :=
  match x with
  | PyInt n => inr (DFin n 0)
  | PyFloat s | PyStr s =>
      match DecimalSyntax.parse s with
      | Some d => inr d
      | None => inl InvalidOperation
      end
  | PyNone | PyBool _ | PyList _ | PyDict _ => inl InvalidOperation
  end.

(** ** Comparison of prices *)

(** [c * 10^e] written with the smaller of the exponents [e] and [e']: the
    coefficient is padded with zeros, as [Decimal._cmp] does. *)
Definition padded (c e e' : Z) : Z := c * 10 ^ (e - Z.min e e').

(** [a == b] on [Decimal]s: a signaling NaN raises, a quiet NaN is equal to
    nothing, finite numbers are compared by value. *)
Definition Decimal_eq (a b : Decimal) : exn + bool :=
  match a, b with
  | DNaN true, _ | _, DNaN true => inl InvalidOperation
  | DNaN false, _ | _, DNaN false => inr false
  | DInf s1, DInf s2 => inr (Bool.eqb s1 s2)
  | DInf _, DFin _ _ | DFin _ _, DInf _ => inr false
  | DFin c1 e1, DFin c2 e2 => inr (padded c1 e1 e2 =? padded c2 e2 e1)
  end.

(** [current_price != new_price], where [current_price] is the column of the
    fetched row ([None] when it is NULL) and [new_price] a [Decimal]. *)
Definition price_ne (current_price : option Decimal) (new_price : Decimal)
  : exn + bool :=
  match current_price with
  | None => inr true
  | Some c =>
      match Decimal_eq c new_price with
      | inr b => inr (negb b)
      | inl e => inl e
      end
  end.

(** The rational number a finite [Decimal] denotes. *)
Definition Decimal_value (c e : Z) : Q := inject_Z c * (10 # 1) ^ e.

(** ** The columns of the schema *)

Definition has_nul (s : string) : bool :=
  existsb (fun a => Ascii.eqb a Ascii.zero) (list_ascii_of_string s).

(** A parameter stored in a [VARCHAR(255)] column. *)
Definition varchar_255 (x : pyval) : exn + option string :=
  match x with
  | PyNone => inr None
  | PyStr s =>
      if has_nul s then inl ValueError
      else if (String.length s <=? 255)%nat then inr (Some s)
      else inl DataError
  | _ => inl ProgrammingError
  end.

(** A parameter stored in an [INTEGER] column. *)
Definition integer (x : pyval) : exn + option Z :=
  match x with
  | PyNone => inr None
  | PyInt n =>
      if (- 2 ^ 31 <=? n) && (n <? 2 ^ 31) then inr (Some n) else inl DataError
  | _ => inl ProgrammingError
  end.

(** [c / k] rounded to the nearest integer, ties away from zero ([0 < k]). *)
Definition round_half_away (c k : Z) : Z :=
  Z.sgn c * ((2 * Z.abs c + k) / (2 * k)).

(** [c * 10^e] in hundredths, rounded as [numeric] rounds. *)
Definition hundredths (c e : Z) : Z :=
  if 0 <=? e + 2 then c * 10 ^ (e + 2)
  else round_half_away c (10 ^ (- (e + 2))).

(** A [Decimal] stored in a [DECIMAL(10, 2)] column: rounded to two decimal
    places, at most eight digits before the point; psycopg2 sends every
    [Decimal] that is not finite as [NaN]. *)
Definition decimal_10_2 (d : Decimal) : exn + Decimal :=
  match d with
  | DFin c e =>
      let n := hundredths c e in
      if Z.abs n <? 10 ^ 10 then inr (DFin n (-2)) else inl DataError
  | DInf _ | DNaN _ => inr (DNaN false)
  end.

(** A parameter compared with the column [sku] in a WHERE clause: there is no
    operator between [VARCHAR] and a number, a boolean or an array, and no
    row has [sku = NULL]. *)
Definition sku_param (x : pyval) : exn + option string :=
  match x with
  | PyNone => inr None
  | PyStr s => if has_nul s then inl ValueError else inr (Some s)
  | _ => inl ProgrammingError
  end.

(** ** The tables *)

Module Products.
Record row : Type := Row {
  sku : string;                      (* VARCHAR(255) PRIMARY KEY *)
  model : option string;             (* VARCHAR(255) *)
  color : option string;             (* VARCHAR(255) *)
  current_price : option Decimal;    (* DECIMAL(10, 2) *)
  last_updated : option Z;           (* TIMESTAMP WITH TIME ZONE *)
  stock_level : option Z;            (* INTEGER *)
  ean : option string;               (* VARCHAR(255) *)
  category : option string           (* VARCHAR(255) *)
}.

(* UPDATE ... SET current_price, stock_level, last_updated *)
Definition set (p : option Decimal) (s : option Z) (t : option Z) (r : row)
  : row :=
  Row (sku r) (model r) (color r) p t s (ean r) (category r).

(* WHERE sku = k; no row has sku = NULL *)
Definition has_sku (k : option string) (r : row) : bool :=
  match k with
  | Some s => String.eqb (sku r) s
  | None => false
  end.

(* the table after UPDATE ... SET ... WHERE sku = k *)
Definition update (k : option string) (p : option Decimal) (s t : option Z)
    (rows : list row) : list row :=
  map (fun r => if has_sku k r then set p s t r else r) rows.
End Products.

Module PriceHistory.
Record row : Type := Row {
  id : Z;                            (* SERIAL PRIMARY KEY *)
  sku : option string;               (* VARCHAR(255) REFERENCES products(sku) *)
  price : option Decimal;            (* DECIMAL(10, 2) *)
  stock_level : option Z;            (* INTEGER *)
  timestamp : option Z               (* TIMESTAMP WITH TIME ZONE *)
}.

Definition has_id (i : Z) (h : row) : bool := id h =? i.
End PriceHistory.

(** ** The log *)

Inductive level : Type := INFO | ERROR.

Inductive message : Type :=
| Added_new_product (sku : pyval)
| Price_change_for (sku : pyval) (current_price : option Decimal) (new_price : Decimal)
| Error_updating_product (sku : pyval) (e : exn)
| Fetched_products (n : nat)
| Failed_to_update_product (sku : pyval) (e : exn)
| Price_tracking_completed
| Price_tracking_failed (e : exn).

(** ** The world of a tracker *)

(** The tables as the connection sees them, the sequence of
    [price_history.id] (the last value it gave), the clock of the database
    server (the time at which the [n]-th transaction of the connection
    begins) and the records logged so far. *)
Record world : Type := World {
  products : list Products.row;
  price_history : list PriceHistory.row;
  price_history_id_seq : Z;
  server_time : nat -> Z;
  txn : nat;
  log : list (level * message)
}.

Definition with_products (ps : list Products.row) (w : world) : world :=
  World ps (price_history w) (price_history_id_seq w) (server_time w) (txn w) (log w).

Definition with_price_history (hs : list PriceHistory.row) (w : world) : world :=
  World (products w) hs (price_history_id_seq w) (server_time w) (txn w) (log w).

Definition with_seq (n : Z) (w : world) : world :=
  World (products w) (price_history w) n (server_time w) (txn w) (log w).

Definition with_txn (n : nat) (w : world) : world :=
  World (products w) (price_history w) (price_history_id_seq w) (server_time w) n (log w).

Definition with_log (l : list (level * message)) (w : world) : world :=
  World (products w) (price_history w) (price_history_id_seq w) (server_time w) (txn w) l.

(** [CURRENT_TIMESTAMP]: the time at which the current transaction began. *)
Definition CURRENT_TIMESTAMP (w : world) : Z := server_time w (txn w).

(** ** Computations that may raise *)

Definition M (A : Type) : Type := world -> (exn + A) * world.

Definition ret {A} (a : A) : M A := fun w => (inr a, w).

Definition raise {A} (e : exn) : M A := fun w => (inl e, w).

Definition bind {A B} (m : M A) (f : A -> M B) : M B :=
  fun w =>
    match m w with
    | (inr a, w') => f a w'
    | (inl e, w') => (inl e, w')
    end.

(** [try: m except Exception as e: h e] *)
Definition try_except {A} (m : M A) (h : exn -> M A) : M A :=
  fun w =>
    match m w with
    | (inl e, w') => h e w'
    | r => r
    end.

Definition lift {A} (r : exn + A) : M A := fun w => (r, w).

Declare Scope py_scope.
Delimit Scope py_scope with py.
Notation "x <- m ;; k" := (bind m (fun x => k))
  (at level 100, m at next level, right associativity) : py_scope.
Notation "m ;; k" := (bind m (fun _ => k))
  (at level 100, right associativity) : py_scope.
Local Open Scope py_scope.

(** ** Dicts and the logger *)

Abbreviation Dict := (gmap string pyval).

(** [d[k]] *)
Definition getitem (d : Dict) (k : string) : M pyval :=
  match d !! k with
  | Some v => ret v
  | None => raise (KeyError k)
  end.

(** [d.get(k, default)] *)
Definition get (d : Dict) (k : string) (default : pyval) : pyval :=
  match d !! k with
  | Some v => v
  | None => default
  end.

Definition logger_info (m : message) : M unit :=
  fun w => (inr tt, with_log (log w ++ [(INFO, m)]) w).

Definition logger_error (m : message) : M unit :=
  fun w => (inr tt, with_log (log w ++ [(ERROR, m)]) w).

(** ** The statements of [update_product] *)

(** [SELECT current_price FROM products WHERE sku = %s], then [fetchone()]:
    [None], or the column of the first row found. *)
Definition select_current_price (sku : pyval) : M (option (option Decimal)) :=
  k <- lift (sku_param sku) ;;
  fun w =>
    (inr (Products.current_price <$> List.find (Products.has_sku k) (products w)), w).

(** [INSERT INTO products (sku, model, color, current_price, stock_level,
    ean, category)]; [last_updated] takes its default.  The primary key is
    not null and unique. *)
Definition insert_into_products
    (sku model color : pyval) (new_price : Decimal) (in_stock ean cat_name : pyval)
  : M unit :=
  k <- lift (varchar_255 sku) ;;
  m <- lift (varchar_255 model) ;;
  c <- lift (varchar_255 color) ;;
  p <- lift (decimal_10_2 new_price) ;;
  s <- lift (integer in_stock) ;;
  e <- lift (varchar_255 ean) ;;
  g <- lift (varchar_255 cat_name) ;;
  match k with
  | None => raise IntegrityError
  | Some k =>
      fun w =>
        if existsb (Products.has_sku (Some k)) (products w)
        then (inl IntegrityError, w)
        else
          let r := Products.Row k m c (Some p) (Some (CURRENT_TIMESTAMP w)) s e g in
          (inr tt, with_products (products w ++ [r]) w)
  end.

(** [nextval('price_history_id_seq')]; a value once given is never given
    again, whatever becomes of the transaction. *)
Definition nextval : M Z :=
  fun w =>
    if price_history_id_seq w <? 2 ^ 31 - 1
    then (inr (price_history_id_seq w + 1), with_seq (price_history_id_seq w + 1) w)
    else (inl DataError, w).

(** [INSERT INTO price_history (sku, price, stock_level)]; [id] and
    [timestamp] take their defaults.  [sku] references [products(sku)] and
    [id] is the primary key. *)
Definition insert_into_price_history
    (sku : pyval) (new_price : Decimal) (in_stock : pyval) : M unit :=
  k <- lift (varchar_255 sku) ;;
  p <- lift (decimal_10_2 new_price) ;;
  s <- lift (integer in_stock) ;;
  i <- nextval ;;
  fun w =>
    if existsb (PriceHistory.has_id i) (price_history w)
    then (inl IntegrityError, w)
    else if match k with
            | Some _ => existsb (Products.has_sku k) (products w)
            | None => true
            end
    then
      let h := PriceHistory.Row i k (Some p) s (Some (CURRENT_TIMESTAMP w)) in
      (inr tt, with_price_history (price_history w ++ [h]) w)
    else (inl IntegrityError, w).

(** [UPDATE products SET current_price = %s, stock_level = %s,
    last_updated = CURRENT_TIMESTAMP WHERE sku = %s] *)
Definition update_products (new_price : Decimal) (in_stock sku : pyval) : M unit :=
  p <- lift (decimal_10_2 new_price) ;;
  s <- lift (integer in_stock) ;;
  k <- lift (sku_param sku) ;;
  fun w =>
    let rows :=
      Products.update k (Some p) s (Some (CURRENT_TIMESTAMP w)) (products w) in
    (inr tt, with_products rows w).

(** [db_conn.commit()] ends the transaction and keeps what it wrote. *)
Definition db_conn_commit : M unit :=
  fun w => (inr tt, with_txn (S (txn w)) w).

(** [db_conn.rollback()] ends the transaction and puts the tables back as
    they were when it began; [begin] is the world at that time. *)
Definition db_conn_rollback (begin : world) : M unit :=
  fun w =>
    (inr tt,
     with_txn (S (txn w))
       (with_price_history (price_history begin)
          (with_products (products begin) w))).

(** ** [PriceTracker.update_product] *)

(** No transaction is open when the method is entered: psycopg2 begins one
    at the first [execute], and every path through the method ends in
    [commit] or in [rollback]. *)
Definition update_product (product : Dict) : M unit :=
  fun begin =>
    try_except
      (sku <- getitem product "sku" ;;
       result <- select_current_price sku ;;
       price <- getitem product "price" ;;
       new_price <- lift (Decimal_of_str price) ;;
       match result with
       | None =>
           (* Insert new product *)
           sku <- getitem product "sku" ;;
           model <- getitem product "model" ;;
           color <- getitem product "color" ;;
           in_stock <- getitem product "in_stock" ;;
           insert_into_products sku model color new_price in_stock
             (get product "ean" (PyStr "")) (get product "cat_name" (PyStr "")) ;;
           (* Record initial price *)
           sku <- getitem product "sku" ;;
           in_stock <- getitem product "in_stock" ;;
           insert_into_price_history sku new_price in_stock ;;
           sku <- getitem product "sku" ;;
           logger_info (Added_new_product sku)
       | Some current_price =>
           (* Update product information *)
           in_stock <- getitem product "in_stock" ;;
           sku <- getitem product "sku" ;;
           update_products new_price in_stock sku ;;
           (* Record price change if different *)
           changed <- lift (price_ne current_price new_price) ;;
           if changed : bool then
             sku <- getitem product "sku" ;;
             in_stock <- getitem product "in_stock" ;;
             insert_into_price_history sku new_price in_stock ;;
             sku <- getitem product "sku" ;;
             logger_info (Price_change_for sku current_price new_price)
           else ret tt
       end ;;
       db_conn_commit)
      (fun e =>
         db_conn_rollback begin ;;
         sku <- getitem product "sku" ;;
         logger_error (Error_updating_product sku e) ;;
         raise e)
      begin.

(** ** The loop of [PriceTracker.track_prices] *)

(** [for product in products: try: self.update_product(product) except
    Exception as e: logger.error(...); continue] *)
Fixpoint for_each_product (products : list Dict) : M unit :=
  match products with
  | [] => ret tt
  | product :: rest =>
      try_except (update_product product)
        (fun e =>
           logger_error
             (Failed_to_update_product (get product "sku" (PyStr "unknown")) e)) ;;
      for_each_product rest
  end.

(** [track_prices] once [fetch_stock_data] has returned and
    [stock_data.get('stock', [])] has given the list [products]. *)
Definition track_prices (products : list Dict) : M unit :=
  try_except
    (logger_info (Fetched_products (length products)) ;;
     for_each_product products ;;
     logger_info Price_tracking_completed)
    (fun e => logger_error (Price_tracking_failed e) ;; raise e).

(** ** Worlds and products of the examples *)

Definition item (sku : string) (price : pyval) (in_stock : Z) : Dict :=
  <["sku" := PyStr sku]> (<["model" := PyStr "X200"]> (<["color" := PyStr "black"]>
  (<["price" := price]> (<["in_stock" := PyInt in_stock]> ∅)))).

Definition SKU1 : pyval -> Z -> Dict := item "SKU1".

Definition empty_world : world :=
  World [] [] 0 (fun n => 1000 * Z.of_nat n) 0%nat [].

(** A world in which the sequence of [price_history.id] has fallen behind
    the table: the next value it gives is already the [id] of an entry. *)
Definition stale_sequence_world : world :=
  World [] [PriceHistory.Row 1 None (Some (DFin 100 (-2))) None None] 0
    (fun n => 1000 * Z.of_nat n) 0%nat [].

(** ** Notions used in the statements *)

(** The rows of [products] with identifier [s]. *)
Definition rows_of (s : string) (rows : list Products.row) : list Products.row :=
  List.filter (Products.has_sku (Some s)) rows.

(** The entries of [price_history] with identifier [s]. *)
Definition entries_of (s : string) (entries : list PriceHistory.row)
  : list PriceHistory.row :=
  List.filter
    (fun h => match PriceHistory.sku h with
              | Some k => String.eqb k s
              | None => false
              end) entries.

(** The rows of identifier [s] with their timestamp set to [t], and nothing
    else changed. *)
Definition touched (s : string) (t : option Z) (rows : list Products.row)
  : list Products.row :=
  map (fun r =>
         if Products.has_sku (Some s) r
         then Products.set (Products.current_price r) (Products.stock_level r) t r
         else r) rows.

(** [update_product] raises: it returns an exception and the tables are as
    they were. *)
Definition raises_unchanged (product : Dict) (w : world) : Prop :=
  (exists e, fst (update_product product w) = inl e) /\
  products (snd (update_product product w)) = products w /\
  price_history (snd (update_product product w)) = price_history w.

(** The identifier of the item has no row in [products]. *)
Definition first_observed (product : Dict) (w : world) : Prop :=
  forall s, product !! "sku" = Some (PyStr s) ->
    List.find (Products.has_sku (Some s)) (products w) = None.

(** The constraints of the schema that the statements rely on: no
    identifier has two rows, a stored price is a value of its column, and
    the sequence is not behind the entries of [price_history]. *)
Definition well_formed (w : world) : Prop :=
  NoDup (map Products.sku (products w)) /\
  (forall r c, In r (products w) -> Products.current_price r = Some c ->
     decimal_10_2 c = inr c) /\
  (forall h, In h (price_history w) -> PriceHistory.id h <= price_history_id_seq w).

(** ** Notions used in the further properties *)

(** What [products] records of an item beyond its price, its stock level
    and its timestamp. *)
Definition description (r : Products.row)
  : string * option string * option string * option string * option string :=
  (Products.sku r, Products.model r, Products.color r, Products.ean r,
   Products.category r).

(** The foreign key of [price_history]: an entry with an identifier has a
    row in [products]. *)
Definition references_hold (w : world) : Prop :=
  forall h s, In h (price_history w) -> PriceHistory.sku h = Some s ->
    In s (map Products.sku (products w)).

(** The price of every row of [products] is a value of its column, and it
    is the price of the last entry that [price_history] has for the
    identifier of the row. *)
Definition price_is_latest (w : world) : Prop :=
  forall r, In r (products w) ->
    (exists c, Products.current_price r = Some c /\ decimal_10_2 c = inr c) /\
    (exists h, last (entries_of (Products.sku r) (price_history w)) = Some h /\
               PriceHistory.price h = Products.current_price r).

(** The entries of [price_history] are in the order of their [id], and the
    sequence is not behind them. *)
Definition ids_increasing (w : world) : Prop :=
  StronglySorted Z.lt (map PriceHistory.id (price_history w)) /\
  Forall (fun i => i <= price_history_id_seq w)
    (map PriceHistory.id (price_history w)).

(** The clock of the server never goes back. *)
Definition clock_monotone (w : world) : Prop :=
  forall n m, (n <= m)%nat -> server_time w n <= server_time w m.

(** The timestamps of the entries that have one, in the order of the
    entries. *)
Definition timestamps (entries : list PriceHistory.row) : list Z :=
  omap PriceHistory.timestamp entries.

(** The entries of [price_history] are in the order of their timestamps,
    none of which is later than the transaction that begins next. *)
Definition history_in_time_order (w : world) : Prop :=
  StronglySorted Z.le (timestamps (price_history w)) /\
  Forall (fun t => t <= CURRENT_TIMESTAMP w) (timestamps (price_history w)).

(** ** [track_prices] on what [fetch_stock_data] returns *)

(** What [track_prices] may raise: an exception of [update_product] or of
    the request, or the exception of an operation that a value does not
    have. *)
Inductive error : Type :=
| Raised (e : exn)
| RequestException      (* requests: the request or the decoding failed *)
| TypeError             (* x['sku'], len(x), iter(x) on an x that has none *)
| AttributeError.       (* x.get on an x that is not a dict *)

(** The dict that [json] builds from the pairs of an object: a later pair
    replaces an earlier one with the same key. *)
Definition as_dict (items : list (string * pyval)) : Dict :=
  fold_left (fun d kv => <[fst kv := snd kv]> d) items ∅.

(** The keys of that dict, in the order in which they were first met. *)
Fixpoint keys_of (items : list (string * pyval)) (seen : list string) : list string :=
  match items with
  | [] => []
  | (k, _) :: rest =>
      if existsb (String.eqb k) seen then keys_of rest seen
      else k :: keys_of rest (k :: seen)
  end.

(** The values that [for product in products] goes through, as many as
    [len(products)] counts: the elements of a list, the keys of a dict, the
    characters of a str; the other values have neither [len] nor [iter]. *)
Definition elements (products : pyval) : error + list pyval :=
  match products with
  | PyList items => inr items
  | PyDict items => inr (map PyStr (keys_of items []))
  | PyStr s => inr (map (fun a => PyStr (String a EmptyString)) (list_ascii_of_string s))
  | PyNone | PyBool _ | PyInt _ | PyFloat _ => inl TypeError
  end.

(** The body of the loop of [track_prices] on any value.  On a dict it is
    the body of [for_each_product].  On another value [product['sku']]
    raises [TypeError] in [update_product], whose handler rolls back and
    meets the same [product['sku']]; the handler of the loop then raises
    [AttributeError] at [product.get], and nothing catches it inside the
    loop. *)
Fixpoint for_each_element (products : list pyval) (w : world)
  : (error + unit) * world :=
  match products with
  | [] => (inr tt, w)
  | PyDict items :: rest =>
      let product := as_dict items in
      match update_product product w with
      | (inr _, w1) => for_each_element rest w1
      | (inl e, w1) =>
          for_each_element rest
            (with_log
               (log w1 ++
                [(ERROR, Failed_to_update_product (get product "sku" (PyStr "unknown")) e)])
               w1)
      end
  | _ :: rest => (inl AttributeError, snd (db_conn_rollback w w))
  end.

(** [track_prices], given what [fetch_stock_data] returned or raised.  An
    exception that leaves the [try] is logged ("Price tracking failed") and
    raised again: it is the result; the connection is closed on every
    path. *)
Definition track_prices_of (fetched : error + pyval) (w : world)
  : (error + unit) * world :=
  match fetched with
  | inl e => (inl e, w)
  | inr (PyDict items) =>
      match elements (get (as_dict items) "stock" (PyList [])) with
      | inl e => (inl e, w)
      | inr products =>
          let w0 := with_log (log w ++ [(INFO, Fetched_products (length products))]) w in
          match for_each_element products w0 with
          | (inr _, w1) =>
              (inr tt, with_log (log w1 ++ [(INFO, Price_tracking_completed)]) w1)
          | (inl e, w1) => (inl e, w1)
          end
      end
  | inr _ => (inl AttributeError, w)
  end.

(** The constraints of the schema and the agreement of current prices with
    the history, together. *)
Definition consistent (w : world) : Prop :=
  well_formed w /\ references_hold w /\ price_is_latest w /\ ids_increasing w.

(** The value is an object of the response: a dict. *)
Definition is_object (v : pyval) : Prop :=
  match v with
  | PyDict _ => True
  | _ => False
  end.

(** ** The setup of the database (src/setup_db.py) *)

Module Setup.

(** What a name stands for among the relations of a database. *)
Inductive relation : Type :=
| Table (columns : list (string * string))   (* the columns, each with its type *)
| Index (table column : string)
| Other.                                     (* another kind of relation *)

(** The relations of a database under the four names that [create_tables]
    uses.  The relations that PostgreSQL names itself (the indexes of the
    primary keys, the sequence of [id]) and the other objects of the
    database are not part of the model. *)
Record database : Type := Database {
  products : option relation;
  price_history : option relation;
  idx_price_history_sku : option relation;
  idx_price_history_timestamp : option relation
}.

Inductive error : Type :=
| OperationalError      (* psycopg2.connect: there is no such database *)
| ProgrammingError.     (* the server rejects the statement *)

Inductive message : Type :=
| Starting_database_setup
| Database_created (name : string)
| Database_already_exists (name : string)
| Tables_created
| Error_creating_tables (e : error)
| Database_setup_completed
| Database_setup_failed (e : error).

(** [CREATE TABLE IF NOT EXISTS products (...)] *)
Definition products_table : relation :=
  Table [("sku", "VARCHAR(255) PRIMARY KEY"); ("model", "VARCHAR(255)");
         ("color", "VARCHAR(255)"); ("current_price", "DECIMAL(10, 2)");
         ("last_updated", "TIMESTAMP WITH TIME ZONE DEFAULT CURRENT_TIMESTAMP");
         ("stock_level", "INTEGER"); ("ean", "VARCHAR(255)");
         ("category", "VARCHAR(255)")].

(** [CREATE TABLE IF NOT EXISTS price_history (...)] *)
Definition price_history_table : relation :=
  Table [("id", "SERIAL PRIMARY KEY");
         ("sku", "VARCHAR(255) REFERENCES products(sku)");
         ("price", "DECIMAL(10, 2)"); ("stock_level", "INTEGER");
         ("timestamp", "TIMESTAMP WITH TIME ZONE DEFAULT CURRENT_TIMESTAMP")].

Section Server.

(** What the server decides, left open: the name under which it creates a
    database for the text that follows [CREATE DATABASE] (none when it
    rejects the statement), whether it lets [price_history.sku] reference
    the column [sku] of a relation, and whether it builds an index on a
    column of a relation. *)
Variable database_named : string -> option string.
Variable accepts_reference : relation -> bool.
Variable accepts_index : relation -> string -> bool.

Definition create_table_products (db : database) : error + database :=
  match products db with
  | Some _ => inr db            (* NOTICE: relation already exists, skipping *)
  | None =>
      inr (Database (Some products_table) (price_history db)
             (idx_price_history_sku db) (idx_price_history_timestamp db))
  end.

Definition create_table_price_history (db : database) : error + database :=
  match price_history db with
  | Some _ => inr db
  | None =>
      match products db with
      | Some r =>
          if accepts_reference r
          then inr (Database (products db) (Some price_history_table)
                      (idx_price_history_sku db) (idx_price_history_timestamp db))
          else inl ProgrammingError
      | None => inl ProgrammingError
      end
  end.

(** [CREATE INDEX IF NOT EXISTS idx_price_history_sku ON price_history(sku)] *)
Definition create_index_sku (db : database) : error + database :=
  match idx_price_history_sku db with
  | Some _ => inr db
  | None =>
      match price_history db with
      | Some r =>
          if accepts_index r "sku"
          then inr (Database (products db) (price_history db)
                      (Some (Index "price_history" "sku"))
                      (idx_price_history_timestamp db))
          else inl ProgrammingError
      | None => inl ProgrammingError
      end
  end.

(** [CREATE INDEX IF NOT EXISTS idx_price_history_timestamp ON
    price_history(timestamp)] *)
Definition create_index_timestamp (db : database) : error + database :=
  match idx_price_history_timestamp db with
  | Some _ => inr db
  | None =>
      match price_history db with
      | Some r =>
          if accepts_index r "timestamp"
          then inr (Database (products db) (price_history db)
                      (idx_price_history_sku db)
                      (Some (Index "price_history" "timestamp")))
          else inl ProgrammingError
      | None => inl ProgrammingError
      end
  end.

Definition and_then {A B} (r : error + A) (f : A -> error + B) : error + B :=
  match r with
  | inr a => f a
  | inl e => inl e
  end.

(** [create_tables], once connected to the database: the four statements
    in one transaction, committed, or rolled back when one of them
    raises. *)
Definition create_tables (db : database)
  : (error + unit) * database * list (level * message) :=
  match and_then (create_table_products db) (fun db1 =>
        and_then (create_table_price_history db1) (fun db2 =>
        and_then (create_index_sku db2) create_index_timestamp)) with
  | inr db' => (inr tt, db', [(INFO, Tables_created)])
  | inl e => (inl e, db, [(ERROR, Error_creating_tables e)])
  end.

(** [create_database]: connected to the database [postgres], without a
    transaction.  A new database is a copy of [template1]. *)
Definition create_database (name : string) (server : gmap string database)
  : (error + unit) * gmap string database * list (level * message) :=
  match server !! "postgres" with
  | None => (inl OperationalError, server, [])
  | Some _ =>
      match server !! name with
      | Some _ => (inr tt, server, [(INFO, Database_already_exists name)])
      | None =>
          match database_named name with
          | None => (inl ProgrammingError, server, [])
          | Some n =>
              match server !! n, server !! "template1" with
              | None, Some template =>
                  (inr tt, <[n := template]> server, [(INFO, Database_created name)])
              | _, _ => (inl ProgrammingError, server, [])
              end
          end
      end
  end.

(** [main]: the exit status of the process (0 when [main] returns), the
    databases of the server and the records logged. *)
Definition main (name : string) (server : gmap string database)
  : Z * gmap string database * list (level * message) :=
  let failed e := [(ERROR, Database_setup_failed e)] in
  match create_database name server with
  | (inl e, server1, l1) =>
      (1, server1, (INFO, Starting_database_setup) :: l1 ++ failed e)
  | (inr _, server1, l1) =>
      match server1 !! name with
      | None =>
          (1, server1, (INFO, Starting_database_setup) :: l1 ++ failed OperationalError)
      | Some db =>
          match create_tables db with
          | (inl e, _, l2) =>
              (1, server1, (INFO, Starting_database_setup) :: l1 ++ l2 ++ failed e)
          | (inr _, db', l2) =>
              (0, <[name := db']> server1,
               (INFO, Starting_database_setup) :: l1 ++ l2 ++
               [(INFO, Database_setup_completed)])
          end
      end
  end.

(** A database in which the names that were free stand for what
    [create_tables] declares. *)
Definition filled (db : database) : database :=
  Database (Some (default products_table (products db)))
    (Some (default price_history_table (price_history db)))
    (Some (default (Index "price_history" "sku") (idx_price_history_sku db)))
    (Some (default (Index "price_history" "timestamp")
             (idx_price_history_timestamp db))).

End Server.

(** A server for the examples: a name of letters is folded to lower case;
    a table can be referenced and indexed, another relation cannot. *)
Definition folded (name : string) : option string :=
  Some (string_of_list_ascii (map DecimalSyntax.lower (list_ascii_of_string name))).

Definition is_table (r : relation) : bool :=
  match r with
  | Table _ => true
  | _ => false
  end.

Definition empty_database : database := Database None None None None.

Definition new_server : gmap string database :=
  {[ "postgres" := empty_database; "template1" := empty_database ]}.

End Setup.

(** * Properties *)

Ltac unfold_py :=
  unfold update_product, try_except, select_current_price, insert_into_products,
    insert_into_price_history, update_products, nextval, db_conn_commit,
    db_conn_rollback, logger_info, logger_error, getitem, lift, bind, ret, raise
    in *.

Ltac case_step :=
  match goal with
  | H : context [match ?x with _ => _ end] |- _ => destruct x eqn:?
  | H : context [if ?x then _ else _] |- _ => destruct x eqn:?
  end.

Ltac col_accepts :=
  unfold varchar_255;
  repeat match goal with
    | H : has_nul ?s = _ |- context [has_nul ?s] => rewrite H
    | H : (String.length ?s <=? 255)%nat = _ |- context [String.length ?s] =>
        rewrite H
    end;
  reflexivity.

(** ** The columns *)

Lemma varchar_255_PyStr (s : string) (k : option string) :
  varchar_255 (PyStr s) = inr k ->
  k = Some s /\ has_nul s = false /\ (String.length s <=? 255)%nat = true.
Proof.
  unfold varchar_255. destruct (has_nul s); [discriminate|].
  destruct (_ <=? _)%nat; [|discriminate]. intros [= <-]. done.
Qed.

Lemma find_has_sku_None (rows : list Products.row) :
  List.find (Products.has_sku None) rows = None.
Proof. induction rows; simpl; auto. Qed.

Lemma existsb_has_sku_find (k : option string) (rows : list Products.row) :
  existsb (Products.has_sku k) rows =
  match List.find (Products.has_sku k) rows with Some _ => true | None => false end.
Proof.
  induction rows as [|r rows IH]; simpl; [done|].
  destruct (Products.has_sku k r); simpl; auto.
Qed.

Lemma has_sku_set (k : option string) p s t (r : Products.row) :
  Products.has_sku k (Products.set p s t r) = Products.has_sku k r.
Proof. by destruct k. Qed.

Lemma existsb_has_sku_update (k k' : option string) p s t (rows : list Products.row) :
  existsb (Products.has_sku k') (Products.update k p s t rows) =
  existsb (Products.has_sku k') rows.
Proof.
  unfold Products.update. induction rows as [|r rows IH]; simpl; [done|].
  rewrite IH. destruct (Products.has_sku k r); by rewrite ?has_sku_set.
Qed.

(** ** What raises leaves the tables as they were *)

Lemma update_product_raises (product : Dict) (w w' : world) (e : exn) :
  update_product product w = (inl e, w') ->
  products w' = products w /\ price_history w' = price_history w /\
  match product !! "sku" with
  | Some sku => log w' = log w ++ [(ERROR, Error_updating_product sku e)]
  | None => e = KeyError "sku" /\ log w' = log w
  end.
Proof.
  intros H. unfold_py.
  repeat (case_step; simpl in *; simplify_eq); simpl; auto.
Qed.

(** ** What returns has taken one of three paths *)

Lemma update_product_returns (product : Dict) (w w' : world) :
  update_product product w = (inr tt, w') ->
  exists s x new q y st,
    product !! "sku" = Some (PyStr s) /\ has_nul s = false /\
    product !! "price" = Some x /\ Decimal_of_str x = inr new /\
    decimal_10_2 new = inr q /\
    product !! "in_stock" = Some y /\ integer y = inr st /\
    let now := Some (CURRENT_TIMESTAMP w) in
    let seq := price_history_id_seq w + 1 in
    let entry := PriceHistory.Row seq (Some s) (Some q) st now in
    match List.find (Products.has_sku (Some s)) (products w) with
    | None =>
        exists mo co m c e g,
          product !! "model" = Some mo /\ varchar_255 mo = inr m /\
          product !! "color" = Some co /\ varchar_255 co = inr c /\
          varchar_255 (get product "ean" (PyStr "")) = inr e /\
          varchar_255 (get product "cat_name" (PyStr "")) = inr g /\
          w' = World (products w ++ [Products.Row s m c (Some q) now st e g])
                 (price_history w ++ [entry]) seq (server_time w) (S (txn w))
                 (log w ++ [(INFO, Added_new_product (PyStr s))])
    | Some r =>
        let cp := Products.current_price r in
        (price_ne cp new = inr false /\
         w' = World (Products.update (Some s) (Some q) st now (products w))
                (price_history w) (price_history_id_seq w) (server_time w)
                (S (txn w)) (log w))
        \/
        (price_ne cp new = inr true /\
         w' = World (Products.update (Some s) (Some q) st now (products w))
                (price_history w ++ [entry]) seq (server_time w) (S (txn w))
                (log w ++ [(INFO, Price_change_for (PyStr s) cp new)]))
    end.
Proof.
  intros H. unfold_py. unfold sku_param, varchar_255 in H.
  repeat (case_step; simpl in *; simplify_eq).
  all: try match goal with
         | H : context [List.find (Products.has_sku None) _] |- _ =>
             rewrite find_has_sku_None in H; discriminate
         end.
  all: do 6 eexists; repeat (split; [eassumption || reflexivity|]).
  all: cbn zeta;
    match goal with
    | |- context [List.find ?f ?l] => destruct (List.find f l) eqn:?
    end; simpl in *; simplify_eq.
  all: try (left; split; [assumption | reflexivity]).
  all: try (right; split; [assumption | reflexivity]).
  all: do 6 eexists;
    repeat (split; [first [eassumption | reflexivity | col_accepts]|]);
    reflexivity.
Qed.

(** ** First observation of an identifier *)

(** C1 (as amended).  An item whose identifier is a string with no row in
    [products], whose model, color, price and stock level are present and
    accepted by their columns (as are the alternate code and the category,
    or their default), reconciled when the next value of the history
    sequence is unused: exactly one row is added to [products], carrying the
    observed identifier, model, color and stock level and the observed price
    rounded to two decimal places, and exactly one entry is added to
    [price_history] with that rounded price and the stock level; the record
    "Added new product" is logged. *)
Theorem update_product_inserts (product : Dict) (w : world)
    (s : string) (mo co x y : pyval) (new q : Decimal)
    (m c e g : option string) (st : option Z) :
  product !! "sku" = Some (PyStr s) ->
  varchar_255 (PyStr s) = inr (Some s) ->
  List.find (Products.has_sku (Some s)) (products w) = None ->
  product !! "model" = Some mo -> varchar_255 mo = inr m ->
  product !! "color" = Some co -> varchar_255 co = inr c ->
  product !! "price" = Some x -> Decimal_of_str x = inr new ->
  decimal_10_2 new = inr q ->
  product !! "in_stock" = Some y -> integer y = inr st ->
  varchar_255 (get product "ean" (PyStr "")) = inr e ->
  varchar_255 (get product "cat_name" (PyStr "")) = inr g ->
  price_history_id_seq w < 2 ^ 31 - 1 ->
  existsb (PriceHistory.has_id (price_history_id_seq w + 1)) (price_history w) = false ->
  let now := Some (CURRENT_TIMESTAMP w) in
  let i := price_history_id_seq w + 1 in
  update_product product w =
    (inr tt,
     World (products w ++ [Products.Row s m c (Some q) now st e g])
       (price_history w ++ [PriceHistory.Row i (Some s) (Some q) st now])
       i (server_time w) (S (txn w))
       (log w ++ [(INFO, Added_new_product (PyStr s))])).
Proof.
  intros Hsku Hk Hfind Hmo Hm Hco Hc Hx Hnew Hq Hy Hst He Hg Hseq Hid now i.
  destruct (varchar_255_PyStr _ _ Hk) as (_ & Hnul & Hlen).
  unfold_py. rewrite Hsku. unfold sku_param. rewrite Hnul. simpl.
  rewrite Hfind, Hx. simpl. rewrite Hnew, Hmo, Hco, Hy. simpl.
  rewrite Hnul, Hlen, Hm, Hc, Hq, Hst, He, Hg. simpl.
  rewrite existsb_has_sku_find, Hfind. simpl.
  rewrite ?Hnul, ?Hlen, ?Hq, ?Hst. simpl.
  destruct (Z.ltb_spec (price_history_id_seq w) (2 ^ 31 - 1)) as [_|?]; [|lia].
  simpl. rewrite Hid.
  rewrite existsb_app. simpl. rewrite String.eqb_refl, orb_true_r. simpl.
  reflexivity.
Qed.

(** The first scenario of the specification: [SKU1] seen for the first time
    at [19.99] with [5] in stock. *)
Lemma update_product_inserts_witness :
  update_product (SKU1 (PyFloat "19.99") 5) empty_world =
    (inr tt,
     World
       [Products.Row "SKU1" (Some "X200") (Some "black") (Some (DFin 1999 (-2)))
          (Some 0) (Some 5) (Some "") (Some "")]
       [PriceHistory.Row 1 (Some "SKU1") (Some (DFin 1999 (-2))) (Some 5) (Some 0)]
       1 (server_time empty_world) 1%nat
       [(INFO, Added_new_product (PyStr "SKU1"))]).
Proof.
  apply (update_product_inserts (SKU1 (PyFloat "19.99") 5) empty_world "SKU1"
           (PyStr "X200") (PyStr "black") (PyFloat "19.99") (PyInt 5)
           (DFin 1999 (-2)) (DFin 1999 (-2))
           (Some "X200") (Some "black") (Some "") (Some "") (Some 5));
    vm_compute; reflexivity.
Defined.

(** C1 (as stated) fails on a price with three decimals: [19.999] is stored
    as [20.00] in both tables, which is not the observed price. *)
Lemma update_product_inserts_rounded_price :
  let product := SKU1 (PyFloat "19.999") 5 in
  let w' := snd (update_product product empty_world) in
  fst (update_product product empty_world) = inr tt /\
  Decimal_of_str (PyFloat "19.999") = inr (DFin 19999 (-3)) /\
  map Products.current_price (products w') = [Some (DFin 2000 (-2))] /\
  map PriceHistory.price (price_history w') = [Some (DFin 2000 (-2))] /\
  Decimal_eq (DFin 2000 (-2)) (DFin 19999 (-3)) = inr false /\
  ~ (Decimal_value 2000 (-2) == Decimal_value 19999 (-3))%Q.
Proof. vm_compute. repeat split; discriminate. Qed.

(** ** A price that equals the stored one is stored unchanged *)

Lemma round_half_away_mul (n k : Z) : 0 < k -> round_half_away (n * k) k = n.
Proof.
  intros Hk. unfold round_half_away.
  rewrite Z.sgn_mul, (Z.sgn_pos k Hk), Z.mul_1_r.
  rewrite Z.abs_mul, (Z.abs_eq k) by lia.
  replace (2 * (Z.abs n * k) + k) with (Z.abs n * (2 * k) + k) by lia.
  rewrite Z.div_add_l by lia. rewrite (Z.div_small k (2 * k)) by lia.
  rewrite Z.add_0_r, Z.mul_comm. apply Z.abs_sgn.
Qed.

Lemma hundredths_of_equal (n c e : Z) :
  padded n (-2) e = padded c e (-2) -> hundredths c e = n.
Proof.
  unfold padded, hundredths. intros H.
  destruct (Z.leb_spec 0 (e + 2)) as [Hle|Hlt].
  - rewrite (Z.min_l (-2) e), (Z.min_r e (-2)) in H by lia.
    replace (-2 - -2) with 0 in H by lia.
    replace (e - -2) with (e + 2) in H by lia.
    rewrite Z.pow_0_r, Z.mul_1_r in H. lia.
  - rewrite (Z.min_r (-2) e), (Z.min_l e (-2)) in H by lia.
    replace (e - e) with 0 in H by lia.
    replace (-2 - e) with (- (e + 2)) in H by lia.
    rewrite Z.pow_0_r, Z.mul_1_r in H. subst c.
    apply round_half_away_mul. apply Z.pow_pos_nonneg; lia.
Qed.

Lemma decimal_10_2_of_equal (c new : Decimal) :
  decimal_10_2 c = inr c -> Decimal_eq c new = inr true ->
  decimal_10_2 new = inr c.
Proof.
  destruct c as [n e| |[]]; simpl; try discriminate.
  - destruct (Z.abs (hundredths n e) <? 10 ^ 10) eqn:Hr; [|discriminate].
    intros [= Hn He]. subst e.
    destruct new as [c2 e2| |[]]; simpl; try discriminate.
    intros [= Heq]. apply Z.eqb_eq in Heq.
    apply hundredths_of_equal in Heq. rewrite Heq.
    rewrite Hn in Hr. by rewrite Hr.
  - destruct new as [| |[]]; discriminate.
Qed.

(** ** The path taken when the price has not changed *)

Lemma unchanged_price_path (product : Dict) (w : world)
    (s : string) (r : Products.row) (x y : pyval) (new q : Decimal) (st : option Z) :
  product !! "sku" = Some (PyStr s) -> has_nul s = false ->
  List.find (Products.has_sku (Some s)) (products w) = Some r ->
  product !! "price" = Some x -> Decimal_of_str x = inr new ->
  decimal_10_2 new = inr q ->
  product !! "in_stock" = Some y -> integer y = inr st ->
  price_ne (Products.current_price r) new = inr false ->
  update_product product w =
    (inr tt,
     World (Products.update (Some s) (Some q) st (Some (CURRENT_TIMESTAMP w)) (products w))
       (price_history w) (price_history_id_seq w) (server_time w) (S (txn w))
       (log w)).
Proof.
  intros Hsku Hnul Hfind Hx Hnew Hq Hy Hst Hne.
  unfold_py. rewrite Hsku. unfold sku_param. rewrite Hnul. simpl.
  rewrite Hfind, Hx. simpl. rewrite Hnew, Hy. simpl.
  rewrite Hq, Hst. simpl. rewrite Hne. reflexivity.
Qed.

(** C2.  An item whose identifier has a row in [products], whose stock level
    is present and accepted by its column, and whose observed price compares
    equal to the stored price (a value of the column [DECIMAL(10, 2)]):
    reconciling sets the stock level and the timestamp of that row, and the
    price to the value it already has; [price_history] and the log are as
    before (outcome UpdatedNoHistory). *)
Theorem update_product_same_price (product : Dict) (w : world)
    (s : string) (r : Products.row) (x y : pyval) (c new : Decimal) (st : option Z) :
  product !! "sku" = Some (PyStr s) -> has_nul s = false ->
  List.find (Products.has_sku (Some s)) (products w) = Some r ->
  Products.current_price r = Some c -> decimal_10_2 c = inr c ->
  product !! "price" = Some x -> Decimal_of_str x = inr new ->
  price_ne (Some c) new = inr false ->
  product !! "in_stock" = Some y -> integer y = inr st ->
  update_product product w =
    (inr tt,
     World (Products.update (Some s) (Some c) st (Some (CURRENT_TIMESTAMP w)) (products w))
       (price_history w) (price_history_id_seq w) (server_time w) (S (txn w))
       (log w)).
Proof.
  intros Hsku Hnul Hfind Hc Hcol Hx Hnew Hne Hy Hst.
  apply unchanged_price_path with r x y new; auto.
  - apply decimal_10_2_of_equal; [done|].
    unfold price_ne in Hne. by destruct (Decimal_eq c new) as [|[]].
  - by rewrite Hc.
Qed.

(** The second scenario of the specification: [SKU1] seen again at [19.99],
    now with [3] in stock. *)
Lemma update_product_same_price_witness :
  let w := snd (update_product (SKU1 (PyFloat "19.99") 5) empty_world) in
  update_product (SKU1 (PyFloat "19.99") 3) w =
    (inr tt,
     World
       [Products.Row "SKU1" (Some "X200") (Some "black") (Some (DFin 1999 (-2)))
          (Some 1000) (Some 3) (Some "") (Some "")]
       [PriceHistory.Row 1 (Some "SKU1") (Some (DFin 1999 (-2))) (Some 5) (Some 0)]
       1 (server_time empty_world) 2%nat
       [(INFO, Added_new_product (PyStr "SKU1"))]).
Proof.
  apply (update_product_same_price (SKU1 (PyFloat "19.99") 3)
           (snd (update_product (SKU1 (PyFloat "19.99") 5) empty_world)) "SKU1"
           (Products.Row "SKU1" (Some "X200") (Some "black") (Some (DFin 1999 (-2)))
              (Some 0) (Some 5) (Some "") (Some ""))
           (PyFloat "19.99") (PyInt 3) (DFin 1999 (-2)) (DFin 1999 (-2)) (Some 3));
    vm_compute; reflexivity.
Defined.

(** ** A changed price *)

(** C3 (as amended).  An item whose identifier has a row in [products],
    whose stock level is present and accepted, and whose observed price
    compares unequal to the stored one, reconciled when the next value of
    the history sequence is unused: the row takes the observed price rounded
    to two decimal places, the stock level and the timestamp, and exactly
    one entry with that rounded price and the stock level is appended to
    [price_history], whose earlier entries are as before (outcome
    UpdatedWithHistory). *)
Theorem update_product_changed_price (product : Dict) (w : world)
    (s : string) (r : Products.row) (x y : pyval) (new q : Decimal) (st : option Z) :
  product !! "sku" = Some (PyStr s) ->
  varchar_255 (PyStr s) = inr (Some s) ->
  List.find (Products.has_sku (Some s)) (products w) = Some r ->
  product !! "price" = Some x -> Decimal_of_str x = inr new ->
  price_ne (Products.current_price r) new = inr true ->
  decimal_10_2 new = inr q ->
  product !! "in_stock" = Some y -> integer y = inr st ->
  price_history_id_seq w < 2 ^ 31 - 1 ->
  existsb (PriceHistory.has_id (price_history_id_seq w + 1)) (price_history w) = false ->
  let now := Some (CURRENT_TIMESTAMP w) in
  let i := price_history_id_seq w + 1 in
  update_product product w =
    (inr tt,
     World (Products.update (Some s) (Some q) st now (products w))
       (price_history w ++ [PriceHistory.Row i (Some s) (Some q) st now])
       i (server_time w) (S (txn w))
       (log w ++ [(INFO, Price_change_for (PyStr s) (Products.current_price r) new)])).
Proof.
  intros Hsku Hk Hfind Hx Hnew Hne Hq Hy Hst Hseq Hid now i.
  destruct (varchar_255_PyStr _ _ Hk) as (_ & Hnul & Hlen).
  unfold_py. rewrite Hsku. unfold sku_param. rewrite Hnul. simpl.
  rewrite Hfind, Hx. simpl. rewrite Hnew, Hy. simpl.
  rewrite Hq, Hst. simpl. rewrite Hne. simpl.
  rewrite ?Hnul, ?Hlen, ?Hq, ?Hst. simpl.
  destruct (Z.ltb_spec (price_history_id_seq w) (2 ^ 31 - 1)) as [_|?]; [|lia].
  simpl. rewrite Hid.
  rewrite existsb_has_sku_update, existsb_has_sku_find, Hfind.
  reflexivity.
Qed.

(** The third scenario of the specification: [SKU1] at [19.99] with [5] in
    stock is seen again at [17.99] with [3] in stock. *)
Lemma update_product_changed_price_witness :
  let w := snd (update_product (SKU1 (PyFloat "19.99") 5) empty_world) in
  update_product (SKU1 (PyFloat "17.99") 3) w =
    (inr tt,
     World
       [Products.Row "SKU1" (Some "X200") (Some "black") (Some (DFin 1799 (-2)))
          (Some 1000) (Some 3) (Some "") (Some "")]
       [PriceHistory.Row 1 (Some "SKU1") (Some (DFin 1999 (-2))) (Some 5) (Some 0);
        PriceHistory.Row 2 (Some "SKU1") (Some (DFin 1799 (-2))) (Some 3) (Some 1000)]
       2 (server_time empty_world) 2%nat
       [(INFO, Added_new_product (PyStr "SKU1"));
        (INFO, Price_change_for (PyStr "SKU1") (Some (DFin 1999 (-2))) (DFin 1799 (-2)))]).
Proof.
  apply (update_product_changed_price (SKU1 (PyFloat "17.99") 3)
           (snd (update_product (SKU1 (PyFloat "19.99") 5) empty_world)) "SKU1"
           (Products.Row "SKU1" (Some "X200") (Some "black") (Some (DFin 1999 (-2)))
              (Some 0) (Some 5) (Some "") (Some ""))
           (PyFloat "17.99") (PyInt 3) (DFin 1799 (-2)) (DFin 1799 (-2)) (Some 3));
    vm_compute; reflexivity.
Defined.

(** C3 (as stated) fails when the price differs in the third decimal:
    [10.001] observed over a stored [10.00] is a changed price, but the row
    keeps [10.00] and the appended entry carries [10.00], not the new
    price. *)
Lemma update_product_changed_price_rounded :
  let w := snd (update_product (SKU1 (PyFloat "10.0") 5) empty_world) in
  let w' := snd (update_product (SKU1 (PyFloat "10.001") 5) w) in
  map Products.current_price (products w) = [Some (DFin 1000 (-2))] /\
  Decimal_of_str (PyFloat "10.001") = inr (DFin 10001 (-3)) /\
  price_ne (Some (DFin 1000 (-2))) (DFin 10001 (-3)) = inr true /\
  fst (update_product (SKU1 (PyFloat "10.001") 5) w) = inr tt /\
  map Products.current_price (products w') = [Some (DFin 1000 (-2))] /\
  map PriceHistory.price (price_history w') =
    [Some (DFin 1000 (-2)); Some (DFin 1000 (-2))] /\
  ~ (Decimal_value 1000 (-2) == Decimal_value 10001 (-3))%Q.
Proof. vm_compute. repeat split; discriminate. Qed.

(** ** Failure *)

(** C4.  When [update_product] raises, [products] and [price_history] are
    as they were before the call, and the error that is logged names the
    identifier of the item and the exception that is raised; an item with no
    identifier raises [KeyError] for the key. *)
Theorem update_product_rolls_back (product : Dict) (w w' : world) (e : exn) :
  update_product product w = (inl e, w') ->
  products w' = products w /\ price_history w' = price_history w /\
  (forall sku, product !! "sku" = Some sku ->
     log w' = log w ++ [(ERROR, Error_updating_product sku e)]) /\
  (product !! "sku" = None -> e = KeyError "sku").
Proof.
  intros H. apply update_product_raises in H as (Hp & Hh & Hl).
  repeat split; [done..| |].
  - intros sku Hsku. by rewrite Hsku in Hl.
  - intros Hsku. rewrite Hsku in Hl. tauto.
Qed.

(** The sequence has fallen behind the table: the row of a new product is
    written, the entry of its first price collides with the entry whose
    [id] is 1, and the row is taken back. *)
Lemma update_product_rolls_back_witness :
  let w := stale_sequence_world in
  let w' := World [] (price_history w) 1 (server_time w) 1%nat
              [(ERROR, Error_updating_product (PyStr "SKU1") IntegrityError)] in
  update_product (SKU1 (PyFloat "19.99") 5) w = (inl IntegrityError, w') /\
  products w' = products w /\ price_history w' = price_history w /\
  (forall sku, SKU1 (PyFloat "19.99") 5 !! "sku" = Some sku ->
     log w' = log w ++ [(ERROR, Error_updating_product sku IntegrityError)]) /\
  (SKU1 (PyFloat "19.99") 5 !! "sku" = None -> IntegrityError = KeyError "sku").
Proof.
  intros w w'.
  assert (H : update_product (SKU1 (PyFloat "19.99") 5) w = (inl IntegrityError, w'))
    by (vm_compute; reflexivity).
  split; [exact H|].
  exact (update_product_rolls_back (SKU1 (PyFloat "19.99") 5) w w' IntegrityError H).
Defined.

(** ** Invariants of the tables *)

Lemma map_sku_update (k : option string) p s t (rows : list Products.row) :
  map Products.sku (Products.update k p s t rows) = map Products.sku rows.
Proof.
  unfold Products.update. rewrite map_map. apply map_ext.
  intros r. by destruct (Products.has_sku k r).
Qed.

Lemma find_has_sku_None_not_in (s : string) (rows : list Products.row) :
  List.find (Products.has_sku (Some s)) rows = None ->
  s ∉ map Products.sku rows.
Proof.
  intros Hfind Hin. apply list_elem_of_In, in_map_iff in Hin as (r & Hr & Hin).
  apply (find_none _ _ Hfind) in Hin. simpl in Hin.
  rewrite Hr, String.eqb_refl in Hin. discriminate.
Qed.

(** C8.  Whatever the item and the state, after [update_product] no
    identifier has two rows in [products] if none had before, and
    [price_history] begins with the entries it had before, unchanged and in
    the same order. *)
Theorem update_product_preserves_invariants (product : Dict) (w : world) :
  let w' := snd (update_product product w) in
  (NoDup (map Products.sku (products w)) -> NoDup (map Products.sku (products w'))) /\
  price_history w `prefix_of` price_history w'.
Proof.
  destruct (update_product product w) as [[e|[]] w'] eqn:E; simpl.
  - apply update_product_raises in E as (-> & -> & _). done.
  - apply update_product_returns in E
      as (s & x & new & q & y & st & _ & _ & _ & _ & _ & _ & _ & E).
    cbn zeta in E.
    destruct (List.find _ _) as [r|] eqn:Hfind.
    + destruct E as [[_ ->]|[_ ->]]; simpl; rewrite map_sku_update.
      * done.
      * split; [done|]. by apply prefix_app_r.
    + destruct E as (mo & co & m & c & e & g & _ & _ & _ & _ & _ & _ & ->). simpl.
      split; [|by apply prefix_app_r].
      intros Hnd. rewrite map_app. simpl. apply NoDup_app. repeat split.
      * done.
      * intros k Hk Hin. apply list_elem_of_singleton in Hin as ->.
        by apply find_has_sku_None_not_in in Hfind.
      * apply NoDup_singleton.
Qed.

Lemma update_product_preserves_invariants_witness :
  let w := snd (update_product (SKU1 (PyFloat "19.99") 5) empty_world) in
  let w' := snd (update_product (SKU1 (PyFloat "17.99") 3) w) in
  NoDup (map Products.sku (products w)) /\
  NoDup (map Products.sku (products w')) /\
  price_history w `prefix_of` price_history w'.
Proof.
  intros w w'.
  assert (H : NoDup (map Products.sku (products w))) by (vm_compute; apply NoDup_singleton).
  split; [exact H|].
  split.
  - exact (proj1 (update_product_preserves_invariants (SKU1 (PyFloat "17.99") 3) w) H).
  - exact (proj2 (update_product_preserves_invariants (SKU1 (PyFloat "17.99") 3) w)).
Defined.

(** ** The worlds the tracker reaches *)

Lemma update_product_raises_seq (product : Dict) (w w' : world) (e : exn) :
  update_product product w = (inl e, w') ->
  price_history_id_seq w <= price_history_id_seq w'.
Proof.
  intros H. unfold_py.
  repeat (case_step; simpl in *; simplify_eq); simpl; lia.
Qed.

Lemma hundredths_of_hundredths (n : Z) : hundredths n (-2) = n.
Proof. unfold hundredths. simpl. lia. Qed.

Lemma decimal_10_2_stored (d q : Decimal) :
  decimal_10_2 d = inr q -> decimal_10_2 q = inr q.
Proof.
  destruct d as [c e| |]; simpl.
  - destruct (Z.abs (hundredths c e) <? 10 ^ 10) eqn:Hr; [|discriminate].
    intros [= <-]. unfold decimal_10_2.
    rewrite hundredths_of_hundredths. by rewrite Hr.
  - by intros [= <-].
  - by intros [= <-].
Qed.

Lemma well_formed_unused_id (w : world) :
  well_formed w ->
  existsb (PriceHistory.has_id (price_history_id_seq w + 1)) (price_history w) = false.
Proof.
  intros (_ & _ & Hid). apply not_true_is_false. intros Hex.
  apply existsb_exists in Hex as (h & Hin & Hh).
  apply Z.eqb_eq in Hh. apply Hid in Hin. lia.
Qed.

Lemma well_formed_stored_price (w : world) (s : string) (r : Products.row)
    (c : Decimal) :
  well_formed w ->
  List.find (Products.has_sku (Some s)) (products w) = Some r ->
  Products.current_price r = Some c -> decimal_10_2 c = inr c.
Proof.
  intros (_ & Hp & _) Hfind Hc. apply find_some in Hfind as [Hin _]. eauto.
Qed.

Lemma empty_world_well_formed : well_formed empty_world.
Proof.
  split; [apply NoDup_nil_2|]. split.
  - intros r c [].
  - intros h [].
Qed.

(** [update_product] keeps the world well-formed, whether it returns or
    raises; so does the loop over a batch. *)
Lemma update_product_well_formed (product : Dict) (w : world) :
  well_formed w -> well_formed (snd (update_product product w)).
Proof.
  intros (Hnd & Hp & Hid).
  destruct (update_product product w) as [[e|[]] w'] eqn:E; simpl.
  - pose proof (update_product_raises_seq _ _ _ _ E) as Hseq.
    apply update_product_raises in E as (Ep & Eh & _).
    unfold well_formed. rewrite Ep, Eh. split; [done|]. split; [done|].
    intros h Hin. apply Hid in Hin. lia.
  - apply update_product_returns in E
      as (s & x & new & q & y & st & _ & _ & _ & _ & Hq & _ & _ & E).
    apply decimal_10_2_stored in Hq. cbn zeta in E.
    assert (Hupd : forall t r c,
              In r (Products.update (Some s) (Some q) st t (products w)) ->
              Products.current_price r = Some c -> decimal_10_2 c = inr c).
    { intros t r c Hin Hc. unfold Products.update in Hin.
      apply in_map_iff in Hin as (r0 & <- & Hin).
      destruct (Products.has_sku (Some s) r0); [|by eauto].
      simpl in Hc. congruence. }
    assert (Happ : forall h, In h (price_history w ++
                      [PriceHistory.Row (price_history_id_seq w + 1) (Some s)
                         (Some q) st (Some (CURRENT_TIMESTAMP w))]) ->
                    PriceHistory.id h <= price_history_id_seq w + 1).
    { intros h Hin. apply in_app_or in Hin as [Hin|[<-|[]]]; [|simpl; lia].
      apply Hid in Hin. lia. }
    destruct (List.find _ _) as [r|] eqn:Hfind.
    + destruct E as [[_ ->]|[_ ->]]; unfold well_formed; simpl;
        rewrite map_sku_update; eauto.
    + destruct E as (mo & co & m & c & e & g & _ & _ & _ & _ & _ & _ & ->).
      unfold well_formed; simpl. split; [|split; [|done]].
      * rewrite map_app. simpl. apply NoDup_app. repeat split; [done| |].
        -- intros k Hk Hin. apply list_elem_of_singleton in Hin as ->.
           by apply find_has_sku_None_not_in in Hfind.
        -- apply NoDup_singleton.
      * intros r c0 Hin Hc. apply in_app_or in Hin as [Hin|[<-|[]]]; [by eauto|].
        simpl in Hc. congruence.
Qed.

Lemma for_each_product_well_formed (ps : list Dict) (w : world) :
  well_formed w -> well_formed (snd (for_each_product ps w)).
Proof.
  revert w. induction ps as [|p ps IH]; intros w Hw; simpl; [done|].
  pose proof (update_product_well_formed p w Hw) as Hw1.
  unfold bind, try_except, logger_error.
  destruct (update_product p w) as [[e|[]] w1]; apply IH; apply Hw1.
Qed.

(** ** Rows of other identifiers *)

Lemma rows_of_update (s s' : string) p st t (rows : list Products.row) :
  s <> s' ->
  rows_of s' (Products.update (Some s) p st t rows) = rows_of s' rows.
Proof.
  intros Hne. unfold rows_of, Products.update.
  induction rows as [|r rows IH]; simpl; [done|].
  destruct (String.eqb_spec (Products.sku r) s) as [Hs|Hs]; simpl.
  - destruct (String.eqb_spec (Products.sku r) s') as [Hs'|Hs']; [congruence|].
    exact IH.
  - destruct (String.eqb (Products.sku r) s'); [f_equal|]; exact IH.
Qed.

(** C10.  [update_product] leaves the rows and the history entries of every
    identifier other than that of the item as they were, whether it returns
    or raises. *)
Theorem update_product_frame (product : Dict) (w : world) (s' : string) :
  product !! "sku" <> Some (PyStr s') ->
  let w' := snd (update_product product w) in
  rows_of s' (products w') = rows_of s' (products w) /\
  entries_of s' (price_history w') = entries_of s' (price_history w).
Proof.
  intros Hne.
  destruct (update_product product w) as [[e|[]] w'] eqn:E; simpl.
  - apply update_product_raises in E as (-> & -> & _). done.
  - apply update_product_returns in E
      as (s & x & new & q & y & st & Hsku & _ & _ & _ & _ & _ & _ & E).
    assert (Hs : s <> s') by congruence.
    assert (Hb : String.eqb s s' = false) by by apply String.eqb_neq.
    cbn zeta in E.
    destruct (List.find _ _) as [r|] eqn:Hfind.
    + destruct E as [[_ ->]|[_ ->]]; simpl; rewrite rows_of_update by done.
      * done.
      * split; [done|]. unfold entries_of.
        rewrite List.filter_app. simpl. rewrite Hb. apply app_nil_r.
    + destruct E as (mo & co & m & c & e & g & _ & _ & _ & _ & _ & _ & ->). simpl.
      unfold rows_of, entries_of. rewrite !List.filter_app. simpl.
      rewrite Hb. by rewrite !app_nil_r.
Qed.

Lemma update_product_frame_witness :
  let w := snd (for_each_product
                  [SKU1 (PyFloat "19.99") 5; item "SKU2" (PyInt 7) 1] empty_world) in
  let w' := snd (update_product (SKU1 (PyFloat "17.99") 3) w) in
  rows_of "SKU2" (products w') = rows_of "SKU2" (products w) /\
  entries_of "SKU2" (price_history w') = entries_of "SKU2" (price_history w).
Proof.
  apply (update_product_frame (SKU1 (PyFloat "17.99") 3)).
  vm_compute. discriminate.
Defined.

(** ** The same item twice *)

Lemma find_app_None {A} (f : A -> bool) (l l' : list A) :
  List.find f l = None -> List.find f (l ++ l') = List.find f l'.
Proof.
  induction l as [|a l IH]; simpl; [done|].
  destruct (f a); [discriminate|]. exact IH.
Qed.

Lemma find_has_sku_update (s : string) p st t (rows : list Products.row)
    (r : Products.row) :
  List.find (Products.has_sku (Some s)) rows = Some r ->
  List.find (Products.has_sku (Some s)) (Products.update (Some s) p st t rows) =
    Some (Products.set p st t r).
Proof.
  unfold Products.update. induction rows as [|a rows IH]; simpl; [done|].
  destruct (String.eqb (Products.sku a) s) eqn:Ha; simpl; rewrite Ha.
  - by intros [= ->].
  - exact IH.
Qed.

Lemma update_touched (s : string) p st t (rows : list Products.row) :
  (forall r, In r rows -> Products.has_sku (Some s) r = true ->
     Products.current_price r = p /\ Products.stock_level r = st) ->
  Products.update (Some s) p st t rows = touched s t rows.
Proof.
  intros H. apply map_ext_in. intros r Hin.
  destruct (Products.has_sku (Some s) r) eqn:Hr; [|done].
  by destruct (H r Hin Hr) as [-> ->].
Qed.

(** C7 (as amended).  When reconciling an item returns and the observed
    price is a price that its column stores unchanged, reconciling the same
    item again returns too, appends no history entry and logs nothing, and
    leaves the rows of the item as the first call left them, except for
    their timestamp, which is that of the second call. *)
Theorem update_product_twice (product : Dict) (w w1 : world)
    (s : string) (x : pyval) (new q : Decimal) :
  update_product product w = (inr tt, w1) ->
  product !! "sku" = Some (PyStr s) ->
  product !! "price" = Some x -> Decimal_of_str x = inr new ->
  decimal_10_2 new = inr q -> Decimal_eq q new = inr true ->
  update_product product w1 =
    (inr tt,
     World (touched s (Some (CURRENT_TIMESTAMP w1)) (products w1))
       (price_history w1) (price_history_id_seq w1) (server_time w1)
       (S (txn w1)) (log w1)).
Proof.
  intros H1 Hsku Hx Hnew Hq Heq.
  apply update_product_returns in H1
    as (s0 & x0 & new0 & q0 & y & st & Hsku0 & Hnul & Hx0 & Hnew0 & Hq0 & Hy & Hst & E).
  assert (s0 = s) as -> by congruence.
  assert (x0 = x) as -> by congruence.
  assert (new0 = new) as -> by congruence.
  assert (q0 = q) as -> by congruence.
  assert (Hne : price_ne (Some q) new = inr false) by (unfold price_ne; by rewrite Heq).
  cbn zeta in E.
  destruct (List.find _ (products w)) as [r|] eqn:Hfind.
  - assert (Hp : products w1 =
              Products.update (Some s) (Some q) st (Some (CURRENT_TIMESTAMP w)) (products w))
      by (by destruct E as [[_ ->]|[_ ->]]).
    rewrite <- (update_touched s (Some q) st).
    + apply unchanged_price_path
        with (Products.set (Some q) st (Some (CURRENT_TIMESTAMP w)) r) x y new;
        try done.
      rewrite Hp. by apply find_has_sku_update.
    + rewrite Hp. unfold Products.update. intros r' Hin Hr'.
      apply in_map_iff in Hin as (r0 & <- & _).
      destruct (Products.has_sku (Some s) r0) eqn:Hr0; [done|]. congruence.
  - destruct E as (mo & co & m & c & e & g & _ & _ & _ & _ & _ & _ & ->).
    set (row := Products.Row s m c (Some q) (Some (CURRENT_TIMESTAMP w)) st e g).
    rewrite <- (update_touched s (Some q) st).
    + apply unchanged_price_path with row x y new; try done.
      simpl. rewrite (find_app_None _ _ _ Hfind). simpl.
      by rewrite String.eqb_refl.
    + simpl. intros r' Hin Hr'. apply in_app_or in Hin as [Hin|[<-|[]]].
      * apply (find_none _ _ Hfind) in Hin. simpl in Hin, Hr'.
        rewrite Hin in Hr'. discriminate.
      * done.
Qed.

(** The second scenario of the specification, with the stock level
    unchanged as well. *)
Lemma update_product_twice_witness :
  let product := SKU1 (PyFloat "19.99") 5 in
  let w1 := snd (update_product product empty_world) in
  update_product product w1 =
    (inr tt,
     World
       [Products.Row "SKU1" (Some "X200") (Some "black") (Some (DFin 1999 (-2)))
          (Some 1000) (Some 5) (Some "") (Some "")]
       (price_history w1) 1 (server_time empty_world) 2%nat (log w1)).
Proof.
  apply (update_product_twice (SKU1 (PyFloat "19.99") 5) empty_world
           (snd (update_product (SKU1 (PyFloat "19.99") 5) empty_world))
           "SKU1" (PyFloat "19.99") (DFin 1999 (-2)) (DFin 1999 (-2)));
    vm_compute; reflexivity.
Defined.

(** C7 (as stated) fails in two ways.  The second call sets [last_updated]
    to its own time, so the row is not the row the first call left; and for
    a price with a third decimal, stored rounded, the second call finds the
    stored price unequal to the observed one and appends a history entry. *)
Lemma update_product_twice_differs :
  (let product := SKU1 (PyFloat "19.99") 5 in
   let w1 := snd (update_product product empty_world) in
   let w2 := snd (update_product product w1) in
   map Products.last_updated (products w1) = [Some 0] /\
   map Products.last_updated (products w2) = [Some 1000] /\
   products w2 <> products w1)
  /\
  (let product := SKU1 (PyFloat "10.001") 5 in
   let w1 := snd (update_product product empty_world) in
   let w2 := snd (update_product product w1) in
   fst (update_product product w1) = inr tt /\
   length (price_history w1) = 1%nat /\ length (price_history w2) = 2%nat /\
   log w2 = log w1 ++
     [(INFO, Price_change_for (PyStr "SKU1") (Some (DFin 1000 (-2))) (DFin 10001 (-3)))]).
Proof. vm_compute. repeat split; discriminate. Qed.

(** ** Optional and required keys *)

Lemma update_product_without_ean (product : Dict) :
  product !! "ean" = None ->
  update_product product = update_product (<["ean" := PyStr ""]> product).
Proof.
  intros H. unfold update_product, getitem, get.
  rewrite lookup_insert_eq, H. rewrite !lookup_insert_ne by done. reflexivity.
Qed.

Lemma update_product_without_cat_name (product : Dict) :
  product !! "cat_name" = None ->
  update_product product = update_product (<["cat_name" := PyStr ""]> product).
Proof.
  intros H. unfold update_product, getitem, get.
  rewrite lookup_insert_eq, H. rewrite !lookup_insert_ne by done. reflexivity.
Qed.

Lemma raises_unchanged_intro (product : Dict) (w : world) :
  (forall w', update_product product w <> (inr tt, w')) ->
  raises_unchanged product w.
Proof.
  intros H. unfold raises_unchanged.
  destruct (update_product product w) as [[e|[]] w'] eqn:E.
  - apply update_product_raises in E as (? & ? & _). simpl. eauto.
  - by destruct (H w').
Qed.

(** C9.  An item without the key [ean] (or [cat_name]) is reconciled as the
    same item with the empty string under that key, and when it is observed
    for the first time and [update_product] returns, the new row has the
    empty string in the column.  An item without [sku], [price] or
    [in_stock], and an item observed for the first time without [model] or
    [color], makes [update_product] raise and leave both tables as they
    were. *)
Theorem update_product_optional_and_required_keys (product : Dict) (w : world) :
  (product !! "ean" = None ->
     update_product product w = update_product (<["ean" := PyStr ""]> product) w /\
     (first_observed product w ->
      forall w', update_product product w = (inr tt, w') ->
        exists r, products w' = products w ++ [r] /\ Products.ean r = Some "")) /\
  (product !! "cat_name" = None ->
     update_product product w = update_product (<["cat_name" := PyStr ""]> product) w /\
     (first_observed product w ->
      forall w', update_product product w = (inr tt, w') ->
        exists r, products w' = products w ++ [r] /\ Products.category r = Some "")) /\
  (product !! "sku" = None -> raises_unchanged product w) /\
  (product !! "price" = None -> raises_unchanged product w) /\
  (product !! "in_stock" = None -> raises_unchanged product w) /\
  (product !! "model" = None -> first_observed product w -> raises_unchanged product w) /\
  (product !! "color" = None -> first_observed product w -> raises_unchanged product w).
Proof.
  split; [|split; [|split; [|split; [|split; [|split]]]]].
  - intros H. split; [by rewrite update_product_without_ean|].
    intros Hfirst w' E. apply update_product_returns in E
      as (s & x & new & q & y & st & Hsku & _ & _ & _ & _ & _ & _ & E).
    cbn zeta in E. rewrite (Hfirst s Hsku) in E.
    destruct E as (mo & co & m & c & e & g & _ & _ & _ & _ & He & _ & ->).
    unfold get in He. rewrite H in He. apply varchar_255_PyStr in He as (<- & _).
    eauto.
  - intros H. split; [by rewrite update_product_without_cat_name|].
    intros Hfirst w' E. apply update_product_returns in E
      as (s & x & new & q & y & st & Hsku & _ & _ & _ & _ & _ & _ & E).
    cbn zeta in E. rewrite (Hfirst s Hsku) in E.
    destruct E as (mo & co & m & c & e & g & _ & _ & _ & _ & _ & Hg & ->).
    unfold get in Hg. rewrite H in Hg. apply varchar_255_PyStr in Hg as (<- & _).
    eauto.
  - intros H. apply raises_unchanged_intro. intros w' E.
    apply update_product_returns in E as (s & x & new & q & y & st & E & _).
    congruence.
  - intros H. apply raises_unchanged_intro. intros w' E.
    apply update_product_returns in E
      as (s & x & new & q & y & st & _ & _ & E & _).
    congruence.
  - intros H. apply raises_unchanged_intro. intros w' E.
    apply update_product_returns in E
      as (s & x & new & q & y & st & _ & _ & _ & _ & _ & E & _).
    congruence.
  - intros H Hfirst. apply raises_unchanged_intro. intros w' E.
    apply update_product_returns in E
      as (s & x & new & q & y & st & Hsku & _ & _ & _ & _ & _ & _ & E).
    cbn zeta in E. rewrite (Hfirst s Hsku) in E.
    destruct E as (mo & co & m & c & e & g & E & _). congruence.
  - intros H Hfirst. apply raises_unchanged_intro. intros w' E.
    apply update_product_returns in E
      as (s & x & new & q & y & st & Hsku & _ & _ & _ & _ & _ & _ & E).
    cbn zeta in E. rewrite (Hfirst s Hsku) in E.
    destruct E as (mo & co & m & c & e & g & _ & _ & E & _). congruence.
Qed.

(** [SKU1] has neither [ean] nor [cat_name]; without [model] it is
    refused. *)
Lemma update_product_optional_and_required_keys_witness :
  let product := SKU1 (PyFloat "19.99") 5 in
  (exists r, products (snd (update_product product empty_world)) = [r] /\
             Products.ean r = Some "") /\
  raises_unchanged (delete "model" product) empty_world.
Proof.
  intros product. split.
  - destruct (update_product_optional_and_required_keys product empty_world)
      as (Hean & _).
    destruct (Hean ltac:(vm_compute; reflexivity)) as [_ Hrow].
    apply (Hrow ltac:(intros s _; reflexivity)
             (snd (update_product product empty_world))).
    vm_compute. reflexivity.
  - destruct (update_product_optional_and_required_keys
                (delete "model" product) empty_world)
      as (_ & _ & _ & _ & _ & Hmodel & _).
    apply Hmodel; [vm_compute; reflexivity | intros s _; reflexivity].
Defined.

(** ** The comparison of prices is exact *)

Lemma ten_not_0 : ~ (10 # 1 == 0)%Q.
Proof. discriminate. Qed.

Lemma Decimal_value_padded (c e m : Z) :
  m <= e ->
  (Decimal_value c e == inject_Z (c * 10 ^ (e - m)) * (10 # 1) ^ m)%Q.
Proof.
  intros Hm. unfold Decimal_value.
  rewrite inject_Z_mult, Zpower_Qpower by lia.
  replace e with ((e - m) + m) at 1 by lia.
  rewrite Qpower_plus by apply ten_not_0.
  change (inject_Z 10) with (10 # 1)%Q. ring.
Qed.

Lemma padded_eqb_value (c1 e1 c2 e2 : Z) :
  (padded c1 e1 e2 =? padded c2 e2 e1) = true <->
  (Decimal_value c1 e1 == Decimal_value c2 e2)%Q.
Proof.
  unfold padded. rewrite (Z.min_comm e2 e1).
  rewrite (Decimal_value_padded c1 e1 (Z.min e1 e2)) by lia.
  rewrite (Decimal_value_padded c2 e2 (Z.min e1 e2)) by lia.
  rewrite Qmult_inj_r by (apply Qpower_not_0, ten_not_0).
  rewrite inject_Z_injective. apply Z.eqb_eq.
Qed.

(** C6.  On finite prices, [current_price != new_price] is false exactly
    when the two denote the same rational number, and true exactly when they
    do not: [10.50] and [10.5000] compare equal, [10.001] and [10.002]
    compare unequal.  Nothing is rounded. *)
Theorem price_comparison_exact :
  (forall c1 e1 c2 e2,
     (price_ne (Some (DFin c1 e1)) (DFin c2 e2) = inr false <->
      (Decimal_value c1 e1 == Decimal_value c2 e2)%Q) /\
     (price_ne (Some (DFin c1 e1)) (DFin c2 e2) = inr true <->
      ~ (Decimal_value c1 e1 == Decimal_value c2 e2)%Q)) /\
  (exists a b,
     Decimal_of_str (PyStr "10.50") = inr a /\
     Decimal_of_str (PyStr "10.5000") = inr b /\
     price_ne (Some a) b = inr false) /\
  (exists a b,
     Decimal_of_str (PyStr "10.001") = inr a /\
     Decimal_of_str (PyStr "10.002") = inr b /\
     price_ne (Some a) b = inr true).
Proof.
  split; [|split].
  - intros c1 e1 c2 e2. unfold price_ne, Decimal_eq.
    rewrite <- padded_eqb_value.
    destruct (padded c1 e1 e2 =? padded c2 e2 e1); simpl.
    + split; split; (done || congruence).
    + split; split; (done || congruence).
  - exists (DFin 1050 (-2)), (DFin 105000 (-4)). by vm_compute.
  - exists (DFin 10001 (-3)), (DFin 10002 (-3)). by vm_compute.
Qed.

(** ** The loop goes on *)

Lemma for_each_product_returns (ps : list Dict) (w : world) :
  fst (for_each_product ps w) = inr tt.
Proof.
  revert w. induction ps as [|p ps IH]; intros w; simpl; [done|].
  unfold bind, try_except, logger_error.
  destruct (update_product p w) as [[e|[]] w1]; apply IH.
Qed.

Lemma for_each_product_app (ps1 ps2 : list Dict) (w : world) :
  for_each_product (ps1 ++ ps2) w =
  for_each_product ps2 (snd (for_each_product ps1 w)).
Proof.
  revert w. induction ps1 as [|p ps1 IH]; intros w; simpl; [done|].
  unfold bind, try_except, logger_error.
  destruct (update_product p w) as [[e|[]] w1]; apply IH.
Qed.

(** C5.  Whatever the batch, [track_prices] returns; and an item of the
    batch that makes [update_product] raise leaves both tables as the items
    before it left them, has its failure logged, and is followed by the
    reconciliation of the items after it, as an item that is reconciled
    is. *)
Theorem track_prices_continues (ps1 ps2 : list Dict) (p : Dict) (w : world) :
  let w1 := snd (for_each_product ps1 w) in
  fst (track_prices (ps1 ++ p :: ps2) w) = inr tt /\
  match update_product p w1 with
  | (inl e, w1') =>
      products w1' = products w1 /\ price_history w1' = price_history w1 /\
      for_each_product (ps1 ++ p :: ps2) w =
        for_each_product ps2
          (with_log
             (log w1' ++
              [(ERROR, Failed_to_update_product (get p "sku" (PyStr "unknown")) e)])
             w1')
  | (inr _, w1') =>
      for_each_product (ps1 ++ p :: ps2) w = for_each_product ps2 w1'
  end.
Proof.
  intros w1. split.
  - unfold track_prices, try_except, bind, logger_info. simpl.
    match goal with
    | |- context [for_each_product ?l ?w0] =>
        pose proof (for_each_product_returns l w0) as Hr;
        destruct (for_each_product l w0) as [[e|[]] w2]
    end; [discriminate|done].
  - rewrite for_each_product_app. fold w1. simpl.
    unfold bind, try_except, logger_error.
    destruct (update_product p w1) as [[e|[]] w1'] eqn:E; [|done].
    apply update_product_raises in E as (? & ? & _). done.
Qed.

(** The last scenario of the specification: of three items the second
    fails (its price is not a number); the first and the third are
    reconciled and committed, and the failure is logged twice, by
    [update_product] and by the loop. *)
Example track_prices_three_items :
  let batch := [item "A" (PyFloat "1.5") 1; item "B" (PyStr "n/a") 2;
                item "C" (PyStr "2.50") 3] in
  let w' := snd (track_prices batch empty_world) in
  fst (track_prices batch empty_world) = inr tt /\
  map Products.sku (products w') = ["A"; "C"] /\
  map PriceHistory.sku (price_history w') = [Some "A"; Some "C"] /\
  log w' =
    [(INFO, Fetched_products 3);
     (INFO, Added_new_product (PyStr "A"));
     (ERROR, Error_updating_product (PyStr "B") InvalidOperation);
     (ERROR, Failed_to_update_product (PyStr "B") InvalidOperation);
     (INFO, Added_new_product (PyStr "C"));
     (INFO, Price_tracking_completed)].
Proof. by vm_compute. Qed.
(** ** [Decimal(str(x))] on examples *)

Example Decimal_19_99 : Decimal_of_str (PyFloat "19.99") = inr (DFin 1999 (-2)).
Proof. reflexivity. Qed.

Example Decimal_text : Decimal_of_str (PyStr " +1_0.5000E-1 ") = inr (DFin 105000 (-5)).
Proof. reflexivity. Qed.

Example Decimal_dot : Decimal_of_str (PyStr ".") = inl InvalidOperation.
Proof. reflexivity. Qed.

Example Decimal_nan : Decimal_of_str (PyFloat "nan") = inr (DNaN false).
Proof. reflexivity. Qed.

(** * Further properties of [update_product] and of [track_prices] *)

(** ** What holds after every item holds after the batch *)

Lemma for_each_product_invariant (P : world -> Prop) :
  (forall p w, P w -> P (snd (update_product p w))) ->
  (forall w l, P w -> P (with_log l w)) ->
  forall ps w, P w -> P (snd (for_each_product ps w)).
Proof.
  intros Hstep Hlog ps. induction ps as [|p ps IH]; intros w Hw; simpl; [done|].
  pose proof (Hstep p w Hw) as Hw1.
  unfold bind, try_except, logger_error.
  destruct (update_product p w) as [[e|[]] w1]; apply IH; simpl in Hw1; auto.
Qed.

Lemma track_prices_invariant (P : world -> Prop) :
  (forall p w, P w -> P (snd (update_product p w))) ->
  (forall w l, P w -> P (with_log l w)) ->
  forall ps w, P w -> P (snd (track_prices ps w)).
Proof.
  intros Hstep Hlog ps w Hw.
  unfold track_prices, try_except, bind, logger_info. simpl.
  match goal with
  | |- context [for_each_product ?l ?w0] =>
      pose proof (for_each_product_returns l w0) as Hr;
      pose proof (for_each_product_invariant P Hstep Hlog l w0 (Hlog _ _ Hw)) as Hp;
      destruct (for_each_product l w0) as [[e|[]] w2]
  end; [discriminate|]. simpl in *. by apply Hlog.
Qed.

(** ** Rows are kept, and so is what describes the item *)

Lemma map_description_update (k : option string) p s t (rows : list Products.row) :
  map description (Products.update k p s t rows) = map description rows.
Proof.
  unfold Products.update. rewrite map_map. apply map_ext.
  intros r. by destruct (Products.has_sku k r).
Qed.

Lemma update_product_descriptions (product : Dict) (w : world) :
  map description (products w) `prefix_of`
  map description (products (snd (update_product product w))).
Proof.
  destruct (update_product product w) as [[e|[]] w'] eqn:E; simpl.
  - apply update_product_raises in E as (-> & _). done.
  - apply update_product_returns in E
      as (s & x & new & q & y & st & _ & _ & _ & _ & _ & _ & _ & E).
    cbn zeta in E. destruct (List.find _ _) as [r|].
    + destruct E as [[_ ->]|[_ ->]]; simpl; by rewrite map_description_update.
    + destruct E as (mo & co & m & c & e & g & _ & _ & _ & _ & _ & _ & ->). simpl.
      rewrite map_app. by apply prefix_app_r.
Qed.

(** X1.  [update_product] never deletes a row of [products] and never
    changes the identifier, model, color, alternate code or category of a
    row: what describes the rows before the call is the beginning of what
    describes the rows after it, and so it is after a whole batch.  A model
    or a color that the source reports differently later is not stored. *)
Theorem descriptions_are_kept (product : Dict) (ps : list Dict) (w : world) :
  map description (products w) `prefix_of`
    map description (products (snd (update_product product w))) /\
  map description (products w) `prefix_of`
    map description (products (snd (track_prices ps w))).
Proof.
  split; [apply update_product_descriptions|].
  apply (track_prices_invariant
           (fun w' => map description (products w) `prefix_of`
                      map description (products w'))); [| |done].
  - intros p w1 H. etrans; [exact H|]. apply update_product_descriptions.
  - by intros w1 l H.
Qed.

(** ** The foreign key *)

Lemma find_has_sku_Some_in (s : string) (rows : list Products.row) (r : Products.row) :
  List.find (Products.has_sku (Some s)) rows = Some r ->
  In r rows /\ Products.sku r = s.
Proof.
  intros H. apply find_some in H as [Hin Hs]. split; [done|].
  simpl in Hs. by apply String.eqb_eq.
Qed.

Lemma update_product_references (product : Dict) (w : world) :
  references_hold w -> references_hold (snd (update_product product w)).
Proof.
  intros Hw. unfold references_hold.
  destruct (update_product product w) as [[e|[]] w'] eqn:E; simpl.
  - apply update_product_raises in E as (-> & -> & _). done.
  - apply update_product_returns in E
      as (s & x & new & q & y & st & _ & _ & _ & _ & _ & _ & _ & E).
    cbn zeta in E. destruct (List.find _ _) as [r|] eqn:Hfind.
    + apply find_has_sku_Some_in in Hfind as [Hin Hs].
      destruct E as [[_ ->]|[_ ->]]; simpl; rewrite map_sku_update; [done|].
      intros h k Hh Hk. apply in_app_or in Hh as [Hh|[<-|[]]]; [by eauto|].
      simpl in Hk. injection Hk as <-. apply in_map_iff. eauto.
    + destruct E as (mo & co & m & c & e & g & _ & _ & _ & _ & _ & _ & ->). simpl.
      intros h k Hh Hk. rewrite map_app. apply in_or_app.
      apply in_app_or in Hh as [Hh|[<-|[]]]; [by eauto|].
      simpl in Hk. injection Hk as <-. right. by left.
Qed.

(** X2.  The foreign key of [price_history] is kept: when every entry that
    has an identifier has a row in [products], it is so after
    [update_product], whether it returns or raises, and after a whole
    batch. *)
Theorem references_are_kept (product : Dict) (ps : list Dict) (w : world) :
  references_hold w ->
  references_hold (snd (update_product product w)) /\
  references_hold (snd (track_prices ps w)).
Proof.
  intros Hw. split; [by apply update_product_references|].
  apply track_prices_invariant; [|done|done].
  intros p w1. apply update_product_references.
Qed.

Lemma references_are_kept_witness :
  let batch := [SKU1 (PyFloat "19.99") 5; item "SKU2" (PyStr "n/a") 1;
                SKU1 (PyFloat "17.99") 3] in
  references_hold (snd (track_prices batch empty_world)).
Proof.
  intros batch.
  apply (references_are_kept (SKU1 (PyFloat "19.99") 5) batch empty_world).
  intros h s Hin. vm_compute in Hin. destruct Hin.
Defined.

(** ** The identifiers of the entries *)

Lemma update_product_ids (product : Dict) (w : world) :
  ids_increasing w -> ids_increasing (snd (update_product product w)).
Proof.
  intros [Hs Hb]. unfold ids_increasing.
  destruct (update_product product w) as [[e|[]] w'] eqn:E; simpl.
  - pose proof (update_product_raises_seq _ _ _ _ E) as Hseq.
    apply update_product_raises in E as (_ & -> & _). split; [done|].
    eapply Forall_impl; [exact Hb|]. simpl. intros i Hi. lia.
  - apply update_product_returns in E
      as (s & x & new & q & y & st & _ & _ & _ & _ & _ & _ & _ & E).
    cbn zeta in E.
    assert (Happ : StronglySorted Z.lt
              (map PriceHistory.id (price_history w) ++ [price_history_id_seq w + 1]) /\
            Forall (fun i => i <= price_history_id_seq w + 1)
              (map PriceHistory.id (price_history w) ++ [price_history_id_seq w + 1])).
    { split.
      - apply StronglySorted_app_2; [|done|repeat constructor].
        intros i j Hi Hj. apply list_elem_of_singleton in Hj as ->.
        rewrite Forall_forall in Hb. apply Hb in Hi. lia.
      - apply Forall_app. split; [|by repeat constructor].
        eapply Forall_impl; [exact Hb|]. simpl. intros i Hi. lia. }
    destruct (List.find _ _) as [r|].
    + destruct E as [[_ ->]|[_ ->]]; simpl; [done|]. by rewrite map_app.
    + destruct E as (mo & co & m & c & e & g & _ & _ & _ & _ & _ & _ & ->). simpl.
      by rewrite map_app.
Qed.

(** X3.  The entries of [price_history] stay in the order of their [id],
    so no two have the same [id], and the sequence stays ahead of them:
    an entry that is appended has an [id] greater than every earlier one,
    also after a call that raised and used up a value of the sequence. *)
Theorem ids_stay_increasing (product : Dict) (ps : list Dict) (w : world) :
  ids_increasing w ->
  ids_increasing (snd (update_product product w)) /\
  ids_increasing (snd (track_prices ps w)).
Proof.
  intros Hw. split; [by apply update_product_ids|].
  apply track_prices_invariant; [|done|done].
  intros p w1. apply update_product_ids.
Qed.

Lemma ids_stay_increasing_witness :
  let batch := [SKU1 (PyFloat "19.99") 5; item "SKU2" (PyStr "n/a") 1;
                SKU1 (PyFloat "17.99") 3] in
  ids_increasing (snd (track_prices batch empty_world)).
Proof.
  intros batch.
  apply (ids_stay_increasing (SKU1 (PyFloat "19.99") 5) batch empty_world).
  split; vm_compute; constructor.
Defined.

(** ** The current price is the last price recorded *)

Lemma entries_of_snoc (s k : string) (hs : list PriceHistory.row) i p st t :
  entries_of s (hs ++ [PriceHistory.Row i (Some k) p st t]) =
  if String.eqb k s
  then entries_of s hs ++ [PriceHistory.Row i (Some k) p st t]
  else entries_of s hs.
Proof.
  unfold entries_of. rewrite List.filter_app. simpl.
  destruct (String.eqb k s); [done|]. apply app_nil_r.
Qed.

Lemma in_update (k : option string) p st t (rows : list Products.row) (r : Products.row) :
  In r (Products.update k p st t rows) ->
  exists r0, In r0 rows /\
    r = (if Products.has_sku k r0 then Products.set p st t r0 else r0).
Proof.
  unfold Products.update. intros H. apply in_map_iff in H as (r0 & <- & Hin). eauto.
Qed.

Lemma price_ne_false (c new : Decimal) :
  price_ne (Some c) new = inr false -> Decimal_eq c new = inr true.
Proof. unfold price_ne. by destruct (Decimal_eq c new) as [|[]]. Qed.

Lemma update_product_price_is_latest (product : Dict) (w : world) :
  price_is_latest w -> price_is_latest (snd (update_product product w)).
Proof.
  intros Hw. unfold price_is_latest.
  destruct (update_product product w) as [[e|[]] w'] eqn:E; simpl.
  - apply update_product_raises in E as (-> & -> & _). done.
  - apply update_product_returns in E
      as (s & x & new & q & y & st & _ & _ & _ & _ & Hq & _ & _ & E).
    pose proof (decimal_10_2_stored _ _ Hq) as Hqq. cbn zeta in E.
    destruct (List.find _ _) as [r0|] eqn:Hfind.
    + apply find_has_sku_Some_in in Hfind as [Hin0 Hs0].
      destruct (Hw r0 Hin0) as [(c0 & Hc0 & Hcc0) (h0 & Hl0 & Hp0)].
      destruct E as [[Hne ->]|[_ ->]]; simpl; intros r Hr;
        apply in_update in Hr as (r1 & Hin1 & ->);
        destruct (Hw r1 Hin1) as [Ht1 (h1 & Hl1 & Hp1)];
        simpl; destruct (String.eqb_spec (Products.sku r1) s) as [Hs1|Hs1]; simpl.
      * rewrite Hc0 in Hne. apply price_ne_false in Hne.
        pose proof (decimal_10_2_of_equal _ _ Hcc0 Hne) as Hqc.
        assert (q = c0) as -> by congruence.
        split; [by eauto|]. exists h1. split; [done|].
        rewrite Hs1, <- Hs0, Hl0 in Hl1. congruence.
      * split; [done|]. eauto.
      * split; [by eauto|]. rewrite entries_of_snoc, Hs1, String.eqb_refl.
        rewrite last_snoc. eauto.
      * split; [done|]. rewrite entries_of_snoc.
        destruct (String.eqb_spec s (Products.sku r1)) as [Heq|_]; [congruence|].
        eauto.
    + destruct E as (mo & co & m & c & e & g & _ & _ & _ & _ & _ & _ & ->). simpl.
      intros r Hr. apply in_app_or in Hr as [Hr|[<-|[]]]; simpl.
      * destruct (Hw r Hr) as [Ht (h & Hl & Hp)]. split; [done|].
        rewrite entries_of_snoc.
        destruct (String.eqb_spec s (Products.sku r)) as [Heq|_]; [|by eauto].
        apply (find_none _ _ Hfind) in Hr. simpl in Hr.
        rewrite Heq, String.eqb_refl in Hr. discriminate.
      * split; [by eauto|]. rewrite entries_of_snoc, String.eqb_refl.
        rewrite last_snoc. eauto.
Qed.

(** X4.  The current price agrees with the history: when the price of
    every row of [products] is a value of its column and is the price of
    the last entry of [price_history] for the identifier of the row, it is
    so after [update_product], whether it returns or raises, and after a
    whole batch.  In particular every product keeps at least one entry. *)
Theorem current_price_is_last_recorded (product : Dict) (ps : list Dict) (w : world) :
  price_is_latest w ->
  price_is_latest (snd (update_product product w)) /\
  price_is_latest (snd (track_prices ps w)).
Proof.
  intros Hw. split; [by apply update_product_price_is_latest|].
  apply track_prices_invariant; [|done|done].
  intros p w1. apply update_product_price_is_latest.
Qed.

Lemma current_price_is_last_recorded_witness :
  let batch := [SKU1 (PyFloat "19.99") 5; item "SKU2" (PyStr "n/a") 1;
                SKU1 (PyFloat "17.999") 3] in
  price_is_latest (snd (track_prices batch empty_world)).
Proof.
  intros batch.
  apply (current_price_is_last_recorded (SKU1 (PyFloat "19.99") 5) batch empty_world).
  intros r Hin. vm_compute in Hin. destruct Hin.
Defined.

(** ** Timestamps *)

Lemma update_product_raises_clock (product : Dict) (w w' : world) (e : exn) :
  update_product product w = (inl e, w') ->
  server_time w' = server_time w /\ txn w' = S (txn w).
Proof.
  intros H. unfold_py.
  repeat (case_step; simpl in *; simplify_eq); simpl; auto.
Qed.

Lemma update_product_clock (product : Dict) (w : world) :
  server_time (snd (update_product product w)) = server_time w /\
  txn (snd (update_product product w)) = S (txn w).
Proof.
  destruct (update_product product w) as [[e|[]] w'] eqn:E; simpl.
  - by apply update_product_raises_clock in E.
  - apply update_product_returns in E
      as (s & x & new & q & y & st & _ & _ & _ & _ & _ & _ & _ & E).
    cbn zeta in E. destruct (List.find _ _) as [r|].
    + by destruct E as [[_ ->]|[_ ->]].
    + by destruct E as (mo & co & m & c & e & g & _ & _ & _ & _ & _ & _ & ->).
Qed.

Lemma update_product_time_order (product : Dict) (w : world) :
  clock_monotone w /\ history_in_time_order w ->
  clock_monotone (snd (update_product product w)) /\
  history_in_time_order (snd (update_product product w)).
Proof.
  intros [Hc [Hs Hb]].
  destruct (update_product_clock product w) as [Hst Htx].
  assert (Hnow : CURRENT_TIMESTAMP w <=
                 CURRENT_TIMESTAMP (snd (update_product product w))).
  { unfold CURRENT_TIMESTAMP. rewrite Hst, Htx. apply Hc. lia. }
  split; [unfold clock_monotone; by rewrite Hst|].
  unfold history_in_time_order. revert Hnow.
  generalize (CURRENT_TIMESTAMP (snd (update_product product w))). intros now' Hnow.
  assert (Happ : forall i k p st,
            StronglySorted Z.le
              (timestamps (price_history w ++
                 [PriceHistory.Row i k p st (Some (CURRENT_TIMESTAMP w))])) /\
            Forall (fun t => t <= now')
              (timestamps (price_history w ++
                 [PriceHistory.Row i k p st (Some (CURRENT_TIMESTAMP w))]))).
  { intros i k p st. unfold timestamps. rewrite omap_app. simpl. split.
    - apply StronglySorted_app_2; [|done|repeat constructor].
      intros t1 t2 H1 H2. apply list_elem_of_singleton in H2 as ->.
      rewrite Forall_forall in Hb. by apply Hb.
    - apply Forall_app. split; [|by repeat constructor].
      eapply Forall_impl; [exact Hb|]. simpl. intros t Ht. lia. }
  assert (Hsame : StronglySorted Z.le (timestamps (price_history w)) /\
                  Forall (fun t => t <= now') (timestamps (price_history w))).
  { split; [done|]. eapply Forall_impl; [exact Hb|]. simpl. intros t Ht. lia. }
  destruct (update_product product w) as [[e|[]] w'] eqn:E; simpl.
  - apply update_product_raises in E as (_ & -> & _). done.
  - apply update_product_returns in E
      as (s & x & new & q & y & st & _ & _ & _ & _ & _ & _ & _ & E).
    cbn zeta in E. destruct (List.find _ _) as [r|].
    + destruct E as [[_ ->]|[_ ->]]; simpl; [done|]. apply Happ.
    + destruct E as (mo & co & m & c & e & g & _ & _ & _ & _ & _ & _ & ->). simpl.
      apply Happ.
Qed.

(** X5.  When the clock of the server never goes back, the entries of
    [price_history] stay in the order of their timestamps: an entry that is
    appended is stamped with the time at which its transaction began, which
    is not before the timestamp of any earlier entry.  It is so after
    [update_product] and after a whole batch. *)
Theorem history_stays_in_time_order (product : Dict) (ps : list Dict) (w : world) :
  clock_monotone w -> history_in_time_order w ->
  history_in_time_order (snd (update_product product w)) /\
  history_in_time_order (snd (track_prices ps w)).
Proof.
  intros Hc Hw. split; [by apply update_product_time_order|].
  apply (track_prices_invariant
           (fun w' => clock_monotone w' /\ history_in_time_order w')); [| |done].
  - intros p w1. apply update_product_time_order.
  - by intros w1 l H.
Qed.

Lemma history_stays_in_time_order_witness :
  let batch := [SKU1 (PyFloat "19.99") 5; item "SKU2" (PyStr "n/a") 1;
                SKU1 (PyFloat "17.99") 3] in
  history_in_time_order (snd (track_prices batch empty_world)).
Proof.
  intros batch.
  apply (history_stays_in_time_order (SKU1 (PyFloat "19.99") 5) batch empty_world).
  - intros n m Hnm. simpl. lia.
  - split; vm_compute; constructor.
Defined.

(** ** A stored price that is [NULL] or [NaN] *)

(** X6.  When the stored price of the item is [NULL] or [NaN], every
    reconciliation that returns appends an entry to [price_history],
    whatever the observed price: [None != new_price] is true and a [NaN]
    is unequal to every [Decimal], itself included.  An item whose price
    is [NaN] gets an entry at every observation. *)
Theorem unknown_price_is_always_recorded (product : Dict) (w w' : world)
    (s : string) (r : Products.row) :
  update_product product w = (inr tt, w') ->
  product !! "sku" = Some (PyStr s) ->
  List.find (Products.has_sku (Some s)) (products w) = Some r ->
  Products.current_price r = None \/ Products.current_price r = Some (DNaN false) ->
  exists h, price_history w' = price_history w ++ [h] /\
            PriceHistory.sku h = Some s /\
            PriceHistory.id h = price_history_id_seq w + 1.
Proof.
  intros E Hsku Hfind Hcp.
  apply update_product_returns in E
    as (s0 & x & new & q & y & st & Hsku0 & _ & _ & _ & _ & _ & _ & E).
  assert (s0 = s) as -> by congruence.
  cbn zeta in E. rewrite Hfind in E.
  destruct E as [[Hne _]|[_ ->]]; simpl; [|by eauto].
  destruct Hcp as [Hcp|Hcp]; rewrite Hcp in Hne; [discriminate|].
  unfold price_ne in Hne. by destruct new as [| |[]].
Qed.

Lemma unknown_price_is_always_recorded_witness :
  let product := SKU1 (PyFloat "nan") 5 in
  let w := snd (update_product product empty_world) in
  exists h, price_history (snd (update_product product w)) = price_history w ++ [h] /\
            PriceHistory.sku h = Some "SKU1" /\
            PriceHistory.id h = price_history_id_seq w + 1.
Proof.
  intros product w.
  apply (unknown_price_is_always_recorded product w (snd (update_product product w))
           "SKU1"
           (Products.Row "SKU1" (Some "X200") (Some "black") (Some (DNaN false))
              (Some 0) (Some 5) (Some "") (Some ""))).
  - vm_compute. reflexivity.
  - vm_compute. reflexivity.
  - vm_compute. reflexivity.
  - right. reflexivity.
Defined.

(** ** For a known identifier only three keys are read *)

(** X7.  For an item whose identifier has a row in [products],
    [update_product] reads the keys [sku], [price] and [in_stock] and no
    other: two items that agree on these three are reconciled alike,
    whatever else they contain or lack. *)
Theorem known_item_reads_three_keys (product product' : Dict) (w : world)
    (s : string) (r : Products.row) :
  product !! "sku" = Some (PyStr s) ->
  List.find (Products.has_sku (Some s)) (products w) = Some r ->
  product' !! "sku" = product !! "sku" ->
  product' !! "price" = product !! "price" ->
  product' !! "in_stock" = product !! "in_stock" ->
  update_product product' w = update_product product w.
Proof.
  intros Hsku Hfind Hs Hp Hi.
  unfold update_product, try_except, select_current_price, getitem, lift, bind, ret, raise.
  rewrite Hs, Hp, Hi, Hsku. unfold sku_param.
  destruct (has_nul s); [reflexivity|]. simpl. rewrite Hfind. simpl.
  destruct (product !! "price") as [x|]; [|reflexivity]. simpl.
  destruct (Decimal_of_str x) as [e|new]; reflexivity.
Qed.

Lemma known_item_reads_three_keys_witness :
  let w := snd (update_product (SKU1 (PyFloat "19.99") 5) empty_world) in
  let product := SKU1 (PyFloat "17.99") 3 in
  update_product (delete "model" (<["ean" := PyInt 7]> product)) w =
  update_product product w.
Proof.
  intros w product.
  apply (known_item_reads_three_keys product
           (delete "model" (<["ean" := PyInt 7]> product)) w "SKU1"
           (Products.Row "SKU1" (Some "X200") (Some "black") (Some (DFin 1999 (-2)))
              (Some 0) (Some 5) (Some "") (Some "")));
    vm_compute; reflexivity.
Defined.

(** ** The last observation that succeeds is the one that stays *)

Lemma update_product_other_rows (product : Dict) (w : world) (s' : string) :
  product !! "sku" <> Some (PyStr s') ->
  rows_of s' (products (snd (update_product product w))) = rows_of s' (products w) /\
  entries_of s' (price_history (snd (update_product product w))) =
    entries_of s' (price_history w).
Proof.
  intros Hne.
  destruct (update_product product w) as [[e|[]] w'] eqn:E; simpl.
  - apply update_product_raises in E as (-> & -> & _). done.
  - apply update_product_returns in E
      as (s & x & new & q & y & st & Hsku & _ & _ & _ & _ & _ & _ & E).
    assert (Hs : s <> s') by congruence.
    assert (Hb : String.eqb s s' = false) by by apply String.eqb_neq.
    cbn zeta in E. destruct (List.find _ _) as [r|].
    + destruct E as [[_ ->]|[_ ->]]; simpl; rewrite rows_of_update by done;
        [done|]. by rewrite entries_of_snoc, Hb.
    + destruct E as (mo & co & m & c & e & g & _ & _ & _ & _ & _ & _ & ->). simpl.
      rewrite entries_of_snoc, Hb. unfold rows_of. rewrite List.filter_app. simpl.
      rewrite Hb. by rewrite app_nil_r.
Qed.

Lemma for_each_product_other_rows (ps : list Dict) (w : world) (s' : string) :
  Forall (fun p => p !! "sku" <> Some (PyStr s')) ps ->
  rows_of s' (products (snd (for_each_product ps w))) = rows_of s' (products w) /\
  entries_of s' (price_history (snd (for_each_product ps w))) =
    entries_of s' (price_history w).
Proof.
  intros Hps. revert w. induction Hps as [|p ps Hp _ IH]; intros w; simpl; [done|].
  pose proof (update_product_other_rows p w s' Hp) as [Hr He].
  unfold bind, try_except, logger_error.
  destruct (update_product p w) as [[e|[]] w1]; simpl in *;
    rewrite <- Hr, <- He.
  - exact (IH (with_log _ w1)).
  - exact (IH w1).
Qed.

(** X8.  In a batch, the rows and the entries of an identifier are those
    that the last item with this identifier left: the items that follow it
    with other identifiers, reconciled or not, do not touch them. *)
Theorem last_observation_stays (ps1 ps2 : list Dict) (p : Dict) (w : world)
    (s : string) :
  p !! "sku" = Some (PyStr s) ->
  Forall (fun p' => p' !! "sku" <> Some (PyStr s)) ps2 ->
  let w1 := snd (update_product p (snd (for_each_product ps1 w))) in
  let w2 := snd (for_each_product (ps1 ++ p :: ps2) w) in
  rows_of s (products w2) = rows_of s (products w1) /\
  entries_of s (price_history w2) = entries_of s (price_history w1).
Proof.
  intros Hsku Hps2 w1 w2. subst w1 w2.
  rewrite for_each_product_app. simpl.
  unfold bind, try_except, logger_error.
  destruct (update_product p _) as [[e|[]] w1]; simpl.
  - exact (for_each_product_other_rows ps2 (with_log _ w1) s Hps2).
  - exact (for_each_product_other_rows ps2 w1 s Hps2).
Qed.

Lemma last_observation_stays_witness :
  let w1 := snd (update_product (SKU1 (PyFloat "17.99") 3)
                   (snd (for_each_product [SKU1 (PyFloat "19.99") 5] empty_world))) in
  let w2 := snd (for_each_product
                   ([SKU1 (PyFloat "19.99") 5] ++ SKU1 (PyFloat "17.99") 3 ::
                    [item "SKU2" (PyInt 7) 1; item "SKU3" (PyStr "n/a") 2])
                   empty_world) in
  rows_of "SKU1" (products w2) = rows_of "SKU1" (products w1) /\
  entries_of "SKU1" (price_history w2) = entries_of "SKU1" (price_history w1).
Proof.
  apply (last_observation_stays [SKU1 (PyFloat "19.99") 5]
           [item "SKU2" (PyInt 7) 1; item "SKU3" (PyStr "n/a") 2]
           (SKU1 (PyFloat "17.99") 3) empty_world "SKU1").
  - vm_compute. reflexivity.
  - repeat constructor; vm_compute; discriminate.
Defined.

(** ** What a reconciliation that returns leaves in the row *)

(** X9.  Whatever path it takes, a reconciliation that returns leaves at
    least one row for the identifier of the item, and every such row has
    the observed price as its column stores it, the observed stock level
    and the time of the transaction: the current state reflects the last
    observation that was reconciled. *)
Theorem row_reflects_observation (product : Dict) (w w' : world)
    (s : string) (x y : pyval) (new q : Decimal) (st : option Z) :
  update_product product w = (inr tt, w') ->
  product !! "sku" = Some (PyStr s) ->
  product !! "price" = Some x -> Decimal_of_str x = inr new ->
  decimal_10_2 new = inr q ->
  product !! "in_stock" = Some y -> integer y = inr st ->
  rows_of s (products w') <> [] /\
  forall r, In r (rows_of s (products w')) ->
    Products.current_price r = Some q /\ Products.stock_level r = st /\
    Products.last_updated r = Some (CURRENT_TIMESTAMP w).
Proof.
  intros E Hsku Hx Hnew Hq Hy Hst.
  apply update_product_returns in E
    as (s0 & x0 & new0 & q0 & y0 & st0 & Hsku0 & _ & Hx0 & Hnew0 & Hq0 & Hy0 & Hst0 & E).
  assert (s0 = s) as -> by congruence.
  assert (x0 = x) as -> by congruence.
  assert (new0 = new) as -> by congruence.
  assert (q0 = q) as -> by congruence.
  assert (y0 = y) as -> by congruence.
  assert (st0 = st) as -> by congruence.
  cbn zeta in E. destruct (List.find _ _) as [r0|] eqn:Hfind.
  - apply find_has_sku_Some_in in Hfind as [Hin0 Hs0].
    assert (Hp : products w' =
              Products.update (Some s) (Some q) st (Some (CURRENT_TIMESTAMP w)) (products w))
      by (by destruct E as [[_ ->]|[_ ->]]).
    rewrite Hp. unfold rows_of. split.
    + intros Hnil.
      assert (Hin : In (Products.set (Some q) st (Some (CURRENT_TIMESTAMP w)) r0)
                      (List.filter (Products.has_sku (Some s))
                         (Products.update (Some s) (Some q) st
                            (Some (CURRENT_TIMESTAMP w)) (products w)))).
      { apply filter_In. split.
        - unfold Products.update. apply in_map_iff. exists r0. split; [|done].
          simpl. by rewrite Hs0, String.eqb_refl.
        - simpl. rewrite Hs0. apply String.eqb_refl. }
      by rewrite Hnil in Hin.
    + intros r Hr. apply filter_In in Hr as [Hr Hs].
      apply in_update in Hr as (r1 & _ & ->).
      destruct (Products.has_sku (Some s) r1) eqn:H1; [done|]. congruence.
  - destruct E as (mo & co & m & c & e & g & _ & _ & _ & _ & _ & _ & ->). simpl.
    unfold rows_of. rewrite List.filter_app. simpl. rewrite String.eqb_refl.
    split; [by destruct (List.filter _ (products w))|].
    intros r Hr. apply in_app_or in Hr as [Hr|[<-|[]]]; [|done].
    apply filter_In in Hr as [Hr Hs].
    apply (find_none _ _ Hfind) in Hr. congruence.
Qed.

Lemma row_reflects_observation_witness :
  let w := snd (update_product (SKU1 (PyFloat "19.99") 5) empty_world) in
  let w' := snd (update_product (SKU1 (PyFloat "17.999") 3) w) in
  rows_of "SKU1" (products w') <> [] /\
  forall r, In r (rows_of "SKU1" (products w')) ->
    Products.current_price r = Some (DFin 1800 (-2)) /\
    Products.stock_level r = Some 3 /\
    Products.last_updated r = Some (CURRENT_TIMESTAMP w).
Proof.
  intros w w'.
  apply (row_reflects_observation (SKU1 (PyFloat "17.999") 3) w w' "SKU1"
           (PyFloat "17.999") (PyInt 3) (DFin 17999 (-3)));
    vm_compute; reflexivity.
Defined.

(** ** How far the stored price is from the observed one *)

Lemma round_half_away_error (c k : Z) :
  0 < k -> 2 * Z.abs (round_half_away c k * k - c) <= k.
Proof.
  intros Hk. unfold round_half_away.
  pose proof (Z.abs_nonneg c) as Ha.
  pose proof (Z.mul_div_le (2 * Z.abs c + k) (2 * k) ltac:(lia)) as H1.
  pose proof (Z.mul_succ_div_gt (2 * Z.abs c + k) (2 * k) ltac:(lia)) as H2.
  set (m := (2 * Z.abs c + k) / (2 * k)) in *.
  destruct c as [|p|p]; simpl Z.sgn; simpl Z.abs in *; lia.
Qed.

Lemma Decimal_value_hundredths_exact (c e : Z) :
  -2 <= e -> (Decimal_value (hundredths c e) (-2) == Decimal_value c e)%Q.
Proof.
  intros He. apply padded_eqb_value. apply Z.eqb_eq.
  unfold padded, hundredths.
  destruct (Z.leb_spec 0 (e + 2)) as [_|?]; [|lia].
  rewrite (Z.min_l (-2) e), (Z.min_r e (-2)) by lia.
  replace (-2 - -2) with 0 by lia. replace (e - -2) with (e + 2) by lia.
  rewrite Z.pow_0_r. lia.
Qed.

Lemma Decimal_value_hundredths_error (c e : Z) :
  e < -2 ->
  (Qabs (Decimal_value (hundredths c e) (-2) - Decimal_value c e) <= 1 # 200)%Q.
Proof.
  intros He. unfold hundredths.
  destruct (Z.leb_spec 0 (e + 2)) as [?|_]; [lia|].
  set (k := 10 ^ (- (e + 2))).
  assert (Hk : 0 < k) by (apply Z.pow_pos_nonneg; lia).
  set (n := round_half_away c k).
  pose proof (round_half_away_error c k Hk) as Herr. fold n in Herr.
  set (P := ((10 # 1) ^ e)%Q).
  assert (HP : (0 < P)%Q) by (apply Qpower_0_lt; reflexivity).
  assert (Hn : (Decimal_value n (-2) == inject_Z (n * k) * P)%Q).
  { rewrite (Decimal_value_padded n (-2) e) by lia.
    replace (-2 - e) with (- (e + 2)) by lia. reflexivity. }
  assert (Hhalf : ((1 # 200) == (1 # 2) * inject_Z k * P)%Q).
  { unfold k, P. rewrite Zpower_Qpower by lia.
    change (inject_Z 10) with (10 # 1)%Q.
    rewrite <- Qmult_assoc, <- Qpower_plus by apply ten_not_0.
    replace (- (e + 2) + e) with (-2) by lia. reflexivity. }
  rewrite Hn, Hhalf. unfold Decimal_value. fold P.
  assert (Hd : (inject_Z (n * k) * P - inject_Z c * P ==
                inject_Z (n * k - c) * P)%Q).
  { unfold Z.sub. rewrite inject_Z_plus, inject_Z_opp. ring. }
  rewrite Hd, Qabs_Qmult, (Qabs_pos P) by apply Qlt_le_weak, HP.
  apply Qmult_le_compat_r; [|apply Qlt_le_weak, HP].
  unfold Qabs, inject_Z, Qle, Qmult. simpl. lia.
Qed.

(** X10.  A finite price that the column [DECIMAL(10, 2)] accepts is stored
    as a whole number of hundredths, less than [10^8] in absolute value,
    that differs from the observed price by at most half a hundredth, and
    by nothing when the observed price has at most two decimals. *)
Theorem stored_price_is_within_half_a_cent (c e : Z) (q : Decimal) :
  decimal_10_2 (DFin c e) = inr q ->
  exists n, q = DFin n (-2) /\ Z.abs n < 10 ^ 10 /\
    (Qabs (Decimal_value n (-2) - Decimal_value c e) <= 1 # 200)%Q /\
    (-2 <= e -> (Decimal_value n (-2) == Decimal_value c e)%Q).
Proof.
  unfold decimal_10_2.
  destruct (Z.ltb_spec (Z.abs (hundredths c e)) (10 ^ 10)) as [Hr|]; [|discriminate].
  intros [= <-]. exists (hundredths c e). split; [done|]. split; [done|].
  split; [|apply Decimal_value_hundredths_exact].
  destruct (Z_lt_le_dec e (-2)) as [He|He].
  - by apply Decimal_value_hundredths_error.
  - rewrite (Decimal_value_hundredths_exact c e) by lia.
    assert (H0 : (Decimal_value c e - Decimal_value c e == 0)%Q) by ring.
    rewrite H0. discriminate.
Qed.

Lemma stored_price_is_within_half_a_cent_witness :
  exists n, DFin 2000 (-2) = DFin n (-2) /\ Z.abs n < 10 ^ 10 /\
    (Qabs (Decimal_value n (-2) - Decimal_value 19995 (-3)) <= 1 # 200)%Q /\
    (-2 <= -3 -> (Decimal_value n (-2) == Decimal_value 19995 (-3))%Q).
Proof.
  apply (stored_price_is_within_half_a_cent 19995 (-3) (DFin 2000 (-2))).
  vm_compute. reflexivity.
Defined.

(** * [track_prices] on what [fetch_stock_data] returns *)

Lemma db_conn_rollback_self (w : world) :
  snd (db_conn_rollback w w) = with_txn (S (txn w)) w.
Proof. by destruct w. Qed.




(** ** When [track_prices] returns *)

Lemma for_each_element_returns (l : list pyval) (w : world) :
  fst (for_each_element l w) = inr tt <-> Forall is_object l.
Proof.
  revert w. induction l as [|v l IH]; intros w; simpl.
  - split; [constructor|done].
  - destruct v; simpl.
    7:{ destruct (update_product (as_dict items) w) as [[e|[]] w1]; rewrite IH;
          rewrite Forall_cons; simpl; tauto. }
    all: rewrite Forall_cons; simpl; split; [discriminate|tauto].
Qed.

(** X12.  [track_prices] returns, and logs that it completed, exactly when
    the response is an object whose [stock], if it has one, holds nothing
    but objects: items that fail do not make it raise, but a failed
    request, a response that is not an object, and a [stock] that is a
    number, [null] or has an element that is no object do. *)
Theorem track_prices_returns_iff (fetched : error + pyval) (w : world) :
  fst (track_prices_of fetched w) = inr tt <->
  exists items products,
    fetched = inr (PyDict items) /\
    elements (get (as_dict items) "stock" (PyList [])) = inr products /\
    Forall is_object products.
Proof.
  unfold track_prices_of. split.
  - destruct fetched as [e|[| | | | | |items]]; try discriminate.
    destruct (elements _) as [e|products] eqn:He; [discriminate|].
    intros H. exists items, products. split; [done|]. split; [done|].
    match type of H with
    | context [for_each_element ?l ?w0] =>
        apply (for_each_element_returns l w0);
        by destruct (for_each_element l w0) as [[?|[]] ?]
    end.
  - intros (items & products & -> & -> & Hall).
    match goal with
    | |- context [for_each_element ?l ?w0] =>
        apply (for_each_element_returns l w0) in Hall;
        by destruct (for_each_element l w0) as [[?|[]] ?]
    end.
Qed.

(** ** The database stays consistent *)

Lemma for_each_element_invariant (P : world -> Prop) :
  (forall p w, P w -> P (snd (update_product p w))) ->
  (forall w l, P w -> P (with_log l w)) ->
  (forall w n, P w -> P (with_txn n w)) ->
  forall l w, P w -> P (snd (for_each_element l w)).
Proof.
  intros Hstep Hlog Htxn l. induction l as [|v l IH]; intros w Hw; [done|].
  destruct v.
  7:{ simpl. pose proof (Hstep (as_dict items) w Hw) as Hw1.
      destruct (update_product (as_dict items) w) as [[e|[]] w1];
        apply IH; simpl in *; auto. }
  all: change (P (snd (db_conn_rollback w w)));
    rewrite db_conn_rollback_self; by apply Htxn.
Qed.

Lemma track_prices_of_invariant (P : world -> Prop) :
  (forall p w, P w -> P (snd (update_product p w))) ->
  (forall w l, P w -> P (with_log l w)) ->
  (forall w n, P w -> P (with_txn n w)) ->
  forall fetched w, P w -> P (snd (track_prices_of fetched w)).
Proof.
  intros Hstep Hlog Htxn fetched w Hw. unfold track_prices_of.
  destruct fetched as [e|[| | | | | |items]]; try done.
  destruct (elements _) as [e|products]; [done|].
  match goal with
  | |- context [for_each_element ?l ?w0] =>
      pose proof (for_each_element_invariant P Hstep Hlog Htxn l w0 (Hlog _ _ Hw));
      destruct (for_each_element l w0) as [[?|[]] ?]
  end; simpl in *; auto.
Qed.

Lemma update_product_consistent (product : Dict) (w : world) :
  consistent w -> consistent (snd (update_product product w)).
Proof.
  intros (H1 & H2 & H3 & H4). split; [|split; [|split]].
  - by apply update_product_well_formed.
  - by apply update_product_references.
  - by apply update_product_price_is_latest.
  - by apply update_product_ids.
Qed.

Lemma empty_world_consistent : consistent empty_world.
Proof.
  split; [apply empty_world_well_formed|]. split; [by intros h s []|].
  split; [by intros r []|]. split; constructor.
Qed.

(** X13.  Whatever [fetch_stock_data] returns or raises and whatever the
    items are, [track_prices] leaves a consistent database consistent: no
    identifier has two rows, every stored price is a value of its column
    and the price of the last entry of its identifier, every entry refers
    to a row, and the entries are in the order of their [id] with the
    sequence ahead of them.  A database filled by the tracker alone, from
    empty tables, is consistent after any number of cycles. *)
Theorem track_prices_keeps_the_database_consistent
    (fetched : error + pyval) (w : world) :
  consistent w -> consistent (snd (track_prices_of fetched w)).
Proof.
  intros Hw. apply track_prices_of_invariant; [| | |done].
  - intros p w1. apply update_product_consistent.
  - by intros w1 l H.
  - by intros w1 n H.
Qed.

Lemma track_prices_keeps_the_database_consistent_witness :
  let response :=
    [("stock",
      PyList [PyDict [("sku", PyStr "A"); ("model", PyStr "m"); ("color", PyStr "c");
                      ("price", PyFloat "1.5"); ("in_stock", PyInt 1)];
              PyDict [("sku", PyStr "A"); ("price", PyStr "2.505"); ("in_stock", PyNone)];
              PyNone])] in
  consistent (snd (track_prices_of (inr (PyDict response))
                     (snd (track_prices_of (inr (PyDict response)) empty_world)))).
Proof.
  intros response.
  apply (track_prices_keeps_the_database_consistent (inr (PyDict response))).
  apply (track_prices_keeps_the_database_consistent (inr (PyDict response))).
  apply empty_world_consistent.
Defined.

(** * The setup of the database *)

Section SetupProperties.

Variable database_named : string -> option string.
Variable accepts_reference : Setup.relation -> bool.
Variable accepts_index : Setup.relation -> string -> bool.

Local Abbreviation create_tables := (Setup.create_tables accepts_reference accepts_index).
Local Abbreviation create_database := (Setup.create_database database_named).
Local Abbreviation main := (Setup.main database_named accepts_reference accepts_index).

Lemma create_tables_outcome (db : Setup.database) :
  (exists l, create_tables db = (inr tt, Setup.filled db, l)) \/
  (exists e l, create_tables db = (inl e, db, l)).
Proof.
  unfold Setup.create_tables, Setup.and_then,
    Setup.create_table_products, Setup.create_table_price_history,
    Setup.create_index_sku, Setup.create_index_timestamp, Setup.filled.
  destruct db as [[p|] [h|] [i|] [j|]]; simpl;
    repeat match goal with
      | |- context [if ?b then _ else _] => destruct b; simpl
      end;
    eauto.
Qed.

(** X14.  [create_tables] is all or nothing, and it never replaces what
    exists: when it returns, each of its four names that stood for a
    relation still stands for the same one, and each that was free stands
    for the table or index that the statement declares; when it raises, the
    database is as it was. *)
Theorem create_tables_fills_or_leaves (db db' : Setup.database)
    (r : Setup.error + unit) (l : list (level * Setup.message)) :
  create_tables db = (r, db', l) ->
  match r with
  | inr _ => db' = Setup.filled db
  | inl _ => db' = db
  end.
Proof.
  intros H. destruct (create_tables_outcome db) as [(l0 & E)|(e & l0 & E)];
    rewrite E in H; by injection H as <- <- <-.
Qed.

Lemma create_tables_again (db db' : Setup.database) (l : list (level * Setup.message)) :
  create_tables db = (inr tt, db', l) ->
  create_tables db' = (inr tt, db', [(INFO, Setup.Tables_created)]).
Proof.
  intros H. destruct (create_tables_outcome db) as [(l0 & E)|(e & l0 & E)];
    rewrite E in H; [|discriminate]. injection H as <- <-.
  by destruct db as [[p|] [h|] [i|] [j|]].
Qed.

(** X15.  [create_tables] can be run again: after a run that returned,
    another run returns too and changes nothing. *)
Theorem create_tables_is_idempotent (db db' : Setup.database)
    (l : list (level * Setup.message)) :
  create_tables db = (inr tt, db', l) ->
  create_tables db' = (inr tt, db', [(INFO, Setup.Tables_created)]).
Proof. apply create_tables_again. Qed.

(** X16.  The whole setup can be run again: after a run of [main] that
    ended with status 0, another run ends with status 0 and leaves every
    database of the server as it is. *)
Theorem setup_is_idempotent (name : string) (server server' : gmap string Setup.database)
    (l : list (level * Setup.message)) :
  main name server = (0, server', l) ->
  exists l', main name server' = (0, server', l').
Proof.
  unfold Setup.main, Setup.create_database.
  destruct (server !! "postgres") as [pg|] eqn:Hpg; [|discriminate].
  destruct (server !! name) as [db|] eqn:Hname.
  - rewrite Hname.
    destruct (create_tables db) as [[[e|[]] db'] l2] eqn:E; [discriminate|].
    intros [= <- <-]. apply create_tables_again in E.
    assert (Hpg' : <[name:=db']> server !! "postgres" = Some
              (if decide (name = "postgres") then db' else pg)).
    { destruct (decide (name = "postgres")) as [->|Hne].
      - by rewrite lookup_insert_eq.
      - by rewrite lookup_insert_ne. }
    rewrite Hpg', !lookup_insert_eq, E, insert_insert_eq. eauto.
  - destruct (database_named name) as [n|] eqn:Hn; [|discriminate].
    destruct (server !! n) as [?|] eqn:Hsn; [discriminate|].
    destruct (server !! "template1") as [template|] eqn:Ht; [|discriminate].
    destruct (<[n:=template]> server !! name) as [db|] eqn:Hname'; [|discriminate].
    destruct (create_tables db) as [[[e|[]] db'] l2] eqn:E; [discriminate|].
    intros [= <- <-]. apply create_tables_again in E.
    assert (Hpg' : exists pg', <[name:=db']> (<[n:=template]> server) !! "postgres"
                               = Some pg').
    { destruct (decide (name = "postgres")) as [->|Hne].
      - rewrite lookup_insert_eq. eauto.
      - rewrite lookup_insert_ne by done.
        destruct (decide (n = "postgres")) as [->|Hne'].
        + rewrite lookup_insert_eq. eauto.
        + rewrite lookup_insert_ne by done. eauto. }
    destruct Hpg' as [pg' Hpg']. rewrite Hpg', !lookup_insert_eq, E, insert_insert_eq.
    eauto.
Qed.

(** X17.  When the server creates the database under another name than
    the configured one (an unquoted name with an upper-case letter is
    folded to lower case) and no database has the configured name, the
    setup cannot succeed: the run ends with status 1 and there is still no
    database of the configured name, so that every later run ends with
    status 1 as well.  The first run leaves a copy of the template behind
    under the other name: [create_tables] connects to the configured
    name, which does not exist. *)
Theorem setup_fails_when_the_name_is_changed (name n : string)
    (server : gmap string Setup.database) :
  database_named name = Some n -> n <> name ->
  server !! name = None ->
  let server1 := snd (fst (main name server)) in
  fst (fst (main name server)) = 1 /\
  server1 !! name = None /\
  (forall template,
     server !! "postgres" <> None -> server !! n = None ->
     server !! "template1" = Some template ->
     server1 = <[n := template]> server).
Proof.
  intros Hn Hne Hname. unfold Setup.main, Setup.create_database.
  rewrite Hname, Hn.
  destruct (server !! "postgres") as [pg|] eqn:Hpg; simpl.
  2:{ split; [done|]. split; [done|]. by intros t H. }
  destruct (server !! n) as [dn|] eqn:Hsn; simpl.
  { split; [done|]. split; [done|]. by intros t _ H. }
  destruct (server !! "template1") as [template|] eqn:Ht; simpl.
  2:{ split; [done|]. split; [done|]. by intros t _ _ H. }
  rewrite lookup_insert_ne by done. rewrite Hname. simpl.
  split; [done|]. rewrite lookup_insert_ne by done. split; [done|].
  by intros t _ _ [= ->].
Qed.

End SetupProperties.

Lemma create_tables_fills_or_leaves_witness :
  Setup.Database (Some Setup.products_table) (Some Setup.Other)
    (Some (Setup.Index "price_history" "sku")) None
  = Setup.Database (Some Setup.products_table) (Some Setup.Other)
      (Some (Setup.Index "price_history" "sku")) None.
Proof.
  apply (create_tables_fills_or_leaves Setup.is_table (fun r _ => Setup.is_table r)
           (Setup.Database (Some Setup.products_table) (Some Setup.Other)
              (Some (Setup.Index "price_history" "sku")) None)
           _ (inl Setup.ProgrammingError)
           [(ERROR, Setup.Error_creating_tables Setup.ProgrammingError)]).
  vm_compute. reflexivity.
Defined.

Lemma create_tables_is_idempotent_witness :
  Setup.create_tables Setup.is_table (fun r _ => Setup.is_table r)
    (Setup.filled Setup.empty_database)
  = (inr tt, Setup.filled Setup.empty_database, [(INFO, Setup.Tables_created)]).
Proof.
  apply (create_tables_is_idempotent Setup.is_table (fun r _ => Setup.is_table r)
           Setup.empty_database _ [(INFO, Setup.Tables_created)]).
  vm_compute. reflexivity.
Defined.

Lemma setup_is_idempotent_witness :
  exists l,
    Setup.main Setup.folded Setup.is_table (fun r _ => Setup.is_table r) "pricetracker"
      (<["pricetracker" := Setup.filled Setup.empty_database]> Setup.new_server)
    = (0, <["pricetracker" := Setup.filled Setup.empty_database]> Setup.new_server, l).
Proof.
  apply (setup_is_idempotent Setup.folded Setup.is_table (fun r _ => Setup.is_table r)
           "pricetracker" Setup.new_server _
           [(INFO, Setup.Starting_database_setup);
            (INFO, Setup.Database_created "pricetracker");
            (INFO, Setup.Tables_created);
            (INFO, Setup.Database_setup_completed)]).
  vm_compute. reflexivity.
Defined.

Lemma setup_fails_when_the_name_is_changed_witness :
  let main := Setup.main Setup.folded Setup.is_table (fun r _ => Setup.is_table r) in
  let server1 := snd (fst (main "PriceTracker" Setup.new_server)) in
  fst (fst (main "PriceTracker" Setup.new_server)) = 1 /\
  server1 !! "PriceTracker" = None /\
  (forall template,
     Setup.new_server !! "postgres" <> None ->
     Setup.new_server !! "pricetracker" = None ->
     Setup.new_server !! "template1" = Some template ->
     server1 = <["pricetracker" := template]> Setup.new_server).
Proof.
  apply (setup_fails_when_the_name_is_changed Setup.folded Setup.is_table
           (fun r _ => Setup.is_table r) "PriceTracker" "pricetracker" Setup.new_server).
  - vm_compute. reflexivity.
  - discriminate.
  - vm_compute. reflexivity.
Defined.
